(** * Startup and shutdown handlers of the GNS3 server

    A shallow embedding of [gns3server/core/tasks.py]:
    [create_startup_handler] / [start_app] and
    [create_shutdown_handler] / [shutdown_handler].

    Both handlers are coroutines made of a straight line of calls to
    collaborators (database, controller, emulator modules, port manager,
    HTTP client, event loop).  They are embedded in a state-and-exception
    monad over a [World] that holds the singletons the handlers touch, the
    event loop's queues and the trace of every call, so that the order of
    the calls and the propagation of exceptions can be stated and proved.

    An [await] runs the awaited call to its end before the handler goes
    on; what other tasks of the loop do in the meantime is not part of the
    model.  A coroutine given to [asyncio.ensure_future] is only queued:
    [start_app] does not await after that, so the coroutine cannot start
    before [start_app] returns. *)

From Stdlib Require Import String List NArith.
From stdpp Require Import gmap strings list fin_maps.
Import ListNotations.

Local Open Scope string_scope.
Local Open Scope list_scope.

(** ** Data *)

(** A Python exception, identified by its text. *)
Definition exn : Type := string.

(** The outcome of a Python call: a value, or a raised exception. *)
Inductive result (A : Type) : Type :=
| Ok (a : A)
| Raise (e : exn).
Arguments Ok {A} a.
Arguments Raise {A} e.

(** Levels of the [logging] module. *)
Inductive Level : Type := NOTSET | DEBUG | INFO | WARNING | ERROR | CRITICAL.

#[global] Instance Level_eq_dec : EqDecision Level.
Proof. solve_decision. Defined.

(** The application object handed to the handlers; only its identity
    matters here. *)
Record FastAPI : Type := { app_id : nat }.

(** A compute descriptor as stored in the database. *)
Record Compute : Type := {
  compute_id : string;
  compute_host : string;
  compute_port : N
}.

(** Object references. *)
Definition loc : Type := nat.

(** The part of a [PortManager] the handlers read: the sets of TCP and UDP
    ports in use. *)
Record PortManager : Type := {
  tcp_ports : gset N;
  udp_ports : gset N
}.

(** The part of an emulator module's singleton the handlers write: its
    [port_manager] attribute, a reference to a [PortManager]. *)
Record Module : Type := {
  port_manager : option loc
}.

(** Callbacks given to [loop.call_later]. *)
Inductive Callback : Type := wakeup_callback.

(** Coroutines given to [asyncio.ensure_future]. *)
Inductive Coroutine : Type := list_images_of (module : string).

(** A task of the event loop: the coroutine it wraps and, once it has run,
    its stored outcome. *)
Record Task : Type := {
  task_coro : Coroutine;
  task_outcome : option (result unit)
}.

(** Calls to collaborators.  [c_start] is the start hook that the
    specification gives to a module; [tasks.py] has no call to it. *)
Inductive Call : Type :=
| c_connect_to_db (app : FastAPI)          (* connect_to_db(app) *)
| c_get_computes (app : FastAPI)           (* get_computes(app) *)
| c_Controller_start (computes : list Compute)  (* Controller.instance().start(computes) *)
| c_Controller_stop                        (* Controller.instance().stop() *)
| c_HTTPClient_close_session               (* HTTPClient.close_session() *)
| c_instance (module : string)             (* module.instance() *)
| c_start (module : string)                (* the start hook of a module *)
| c_unload (module : string)               (* m.unload() *)
| c_list_images (module : string).         (* the body of list_images() *)

(** The texts given to the logger.  The f-strings are kept structured:
    the module's name, or the set of ports, is the argument. *)
Inductive Message : Type :=
| Loading_module (name : string)
| Unloading_module (name : string)
| TCP_ports_are_still_used (ports : gset N)
| UDP_ports_are_still_used (ports : gset N).

(** What a run leaves in the trace. *)
Inductive Event : Type :=
| Begin (c : Call)                     (* the call starts *)
| Done (c : Call)                      (* the call returned *)
| Failed (c : Call) (e : exn)          (* the call raised [e] *)
| Log (lvl : Level) (msg : Message)    (* log.debug / log.warning *)
| SetLevel (lvl : Level)               (* logger.setLevel on the asyncio logger *)
| SetDebug (b : bool)                  (* loop.set_debug *)
| CallLater (delay_ms : N) (cb : Callback)   (* loop.call_later *)
| EnsureFuture (co : Coroutine)        (* asyncio.ensure_future *)
| SetPortManager (module : string) (pm : loc).   (* m.port_manager = ... *)

(** The state the handlers run in. *)
Record World : Type := {
  trace : list Event;                       (* every effect so far, oldest first *)
  loop_timers : list (N * Callback);        (* pending loop.call_later entries *)
  loop_tasks : list Task;                   (* tasks made by ensure_future *)
  loop_debug : bool;
  asyncio_level : Level;                    (* level of the "asyncio" logger *)
  heap : list PortManager;                  (* PortManager objects, by reference *)
  PortManager__instance : option loc;       (* PortManager._instance *)
  Module__instance : gmap string Module     (* module._instance, by class name *)
}.

Definition empty_world : World := {|
  trace := [];
  loop_timers := [];
  loop_tasks := [];
  loop_debug := false;
  asyncio_level := NOTSET;
  heap := [];
  PortManager__instance := None;
  Module__instance := ∅
|}.

(** What the handlers do not decide by themselves: constants of the host
    and of the package that [tasks.py] imports, and the outcome of each
    collaborator. *)
Record Env : Type := {
  sys_platform : string;                    (* sys.platform *)
  log_effective_level : Level;              (* log.getEffectiveLevel() *)
  MODULES : list string;                    (* gns3server.compute.MODULES, by class name *)
  db_connect : option exn;                  (* connect_to_db raises? *)
  db_computes : result (list Compute);      (* what get_computes returns or raises *)
  controller_start : list Compute -> option exn;
  controller_stop : option exn;
  http_close_session : option exn;
  module_init : string -> option exn;       (* the module's constructor raises? *)
  module_unload : string -> option exn;     (* the module's unload hook raises? *)
  module_releases : string -> gset N * gset N;  (* ports its unload hook releases *)
  qemu_list_images : option exn             (* the image listing raises? *)
}.

(** ** The monad of the handlers *)

Definition M (A : Type) : Type := World -> result A * World.

Definition ret {A : Type} (a : A) : M A := fun w => (Ok a, w).

Definition raise {A : Type} (e : exn) : M A := fun w => (Raise e, w).

Definition bind {A B : Type} (m : M A) (k : A -> M B) : M B :=
  fun w =>
    match m w with
    | (Ok a, w') => k a w'
    | (Raise e, w') => (Raise e, w')
    end.

Notation "x <- c1 ;; c2" := (bind c1 (fun x => c2))
  (at level 100, c1 at next level, right associativity).
Notation "c1 ;; c2" := (bind c1 (fun _ => c2))
  (at level 100, right associativity).

(** [for x in xs: body(x)] *)
Fixpoint for_each {A : Type} (xs : list A) (body : A -> M unit) : M unit :=
  match xs with
  | [] => ret tt
  | x :: rest => body x ;; for_each rest body
  end.

(** Only the trace changes. *)
Definition with_trace (tr : list Event) (w : World) : World := {|
  trace := tr;
  loop_timers := loop_timers w;
  loop_tasks := loop_tasks w;
  loop_debug := loop_debug w;
  asyncio_level := asyncio_level w;
  heap := heap w;
  PortManager__instance := PortManager__instance w;
  Module__instance := Module__instance w
|}.

(** An effect is appended to the trace. *)
Definition emit (e : Event) : M unit :=
  fun w => (Ok tt, with_trace (trace w ++ [e]) w).

(** A given outcome, with no effect. *)
Definition lift {A : Type} (o : result A) : M A := fun w => (o, w).

Definition get_world : M World := fun w => (Ok w, w).

Definition modify (f : World -> World) : M unit := fun w => (Ok tt, f w).

(** A call [c] to a collaborator: the trace records that the call started
    and, after its body has run, how it ended; an exception propagates to
    the caller.  An awaited call is followed to its end in one step: what
    the loop does with its pending tasks and timers while the handler is
    suspended is not part of a run of the handler: a run adds to
    [loop_tasks] and [loop_timers] what it asks of the loop and leaves
    what was there as it is. *)
Definition call {A : Type} (c : Call) (body : M A) : M A :=
  fun w =>
    match body (with_trace (trace w ++ [Begin c]) w) with
    | (Ok a, w') => (Ok a, with_trace (trace w' ++ [Done c]) w')
    | (Raise e, w') => (Raise e, with_trace (trace w' ++ [Failed c e]) w')
    end.

(** Returns, or raises the given exception. *)
Definition outcome (o : option exn) : M unit :=
  match o with
  | None => ret tt
  | Some e => raise e
  end.

(** ** Updates of the world *)

Definition with_timers (f : list (N * Callback) -> list (N * Callback)) (w : World) : World := {|
  trace := trace w;
  loop_timers := f (loop_timers w);
  loop_tasks := loop_tasks w;
  loop_debug := loop_debug w;
  asyncio_level := asyncio_level w;
  heap := heap w;
  PortManager__instance := PortManager__instance w;
  Module__instance := Module__instance w
|}.

Definition with_tasks (f : list Task -> list Task) (w : World) : World := {|
  trace := trace w;
  loop_timers := loop_timers w;
  loop_tasks := f (loop_tasks w);
  loop_debug := loop_debug w;
  asyncio_level := asyncio_level w;
  heap := heap w;
  PortManager__instance := PortManager__instance w;
  Module__instance := Module__instance w
|}.

Definition with_debug (b : bool) (w : World) : World := {|
  trace := trace w;
  loop_timers := loop_timers w;
  loop_tasks := loop_tasks w;
  loop_debug := b;
  asyncio_level := asyncio_level w;
  heap := heap w;
  PortManager__instance := PortManager__instance w;
  Module__instance := Module__instance w
|}.

Definition with_level (lvl : Level) (w : World) : World := {|
  trace := trace w;
  loop_timers := loop_timers w;
  loop_tasks := loop_tasks w;
  loop_debug := loop_debug w;
  asyncio_level := lvl;
  heap := heap w;
  PortManager__instance := PortManager__instance w;
  Module__instance := Module__instance w
|}.

Definition with_heap (f : list PortManager -> list PortManager) (w : World) : World := {|
  trace := trace w;
  loop_timers := loop_timers w;
  loop_tasks := loop_tasks w;
  loop_debug := loop_debug w;
  asyncio_level := asyncio_level w;
  heap := f (heap w);
  PortManager__instance := PortManager__instance w;
  Module__instance := Module__instance w
|}.

Definition with_PortManager (l : loc) (w : World) : World := {|
  trace := trace w;
  loop_timers := loop_timers w;
  loop_tasks := loop_tasks w;
  loop_debug := loop_debug w;
  asyncio_level := asyncio_level w;
  heap := heap w;
  PortManager__instance := Some l;
  Module__instance := Module__instance w
|}.

Definition with_modules (f : gmap string Module -> gmap string Module) (w : World) : World := {|
  trace := trace w;
  loop_timers := loop_timers w;
  loop_tasks := loop_tasks w;
  loop_debug := loop_debug w;
  asyncio_level := asyncio_level w;
  heap := heap w;
  PortManager__instance := PortManager__instance w;
  Module__instance := f (Module__instance w)
|}.

(** ** The logger and the event loop *)

Definition log_debug (msg : Message) : M unit := emit (Log DEBUG msg).

Definition log_warning (msg : Message) : M unit := emit (Log WARNING msg).

(** [logging.getLogger("asyncio").setLevel(lvl)] *)
Definition setLevel (lvl : Level) : M unit :=
  emit (SetLevel lvl) ;; modify (with_level lvl).

(** [loop.set_debug(b)] *)
Definition set_debug (b : bool) : M unit :=
  emit (SetDebug b) ;; modify (with_debug b).

(** [loop.call_later(delay, cb)]: the callback is queued, not run. *)
Definition call_later (delay_ms : N) (cb : Callback) : M unit :=
  emit (CallLater delay_ms cb) ;;
  modify (with_timers (fun ts => ts ++ [(delay_ms, cb)])).

(** [asyncio.ensure_future(co)]: the coroutine is wrapped in a task that the
    loop will run later; nothing of it runs now. *)
Definition ensure_future (co : Coroutine) : M unit :=
  emit (EnsureFuture co) ;;
  modify (with_tasks (fun ts => ts ++ [{| task_coro := co; task_outcome := None |}])).

(** The 0.5 second of [loop.call_later(0.5, wakeup)], in milliseconds. *)
Definition WAKEUP_DELAY : N := 500.

(** The nested function of [start_app]:
    [def wakeup(): loop.call_later(0.5, wakeup)]. *)
Definition wakeup : M unit := call_later WAKEUP_DELAY wakeup_callback.

Definition run_callback (cb : Callback) : M unit :=
  match cb with
  | wakeup_callback => wakeup
  end.

(** ** Singletons *)

Definition new_PortManager : PortManager := {| tcp_ports := ∅; udp_ports := ∅ |}.

(** Modelled from the spec: [PortManager.instance()], whose class
    [gns3server.compute.port_manager.PortManager] is missing, is the
    process-wide singleton accessor; it returns the existing instance
    ([PortManager._instance], which the test fixtures reset to [None]) or
    creates it on first call, with no port in use. *)
Definition PortManager_instance : M loc :=
  w <- get_world ;;
  match PortManager__instance w with
  | Some l => ret l
  | None =>
      let l := length (heap w) in
      modify (with_heap (fun h => h ++ [new_PortManager])) ;;
      modify (with_PortManager l) ;;
      ret l
  end.

(** The port manager behind a reference.  A reference that is not in the
    heap, which no run creates, reads as a port manager with no port in
    use. *)
Definition deref (w : World) (l : loc) : PortManager :=
  default new_PortManager (heap w !! l).

(** [PortManager.instance().tcp_ports] and [.udp_ports] *)
Definition get_tcp_ports (l : loc) : M (gset N) :=
  w <- get_world ;; ret (tcp_ports (deref w l)).

Definition get_udp_ports (l : loc) : M (gset N) :=
  w <- get_world ;; ret (udp_ports (deref w l)).

(** [m.port_manager = pm] on the singleton of class [m]. *)
Definition set_port_manager (m : string) (pm : loc) : M unit :=
  emit (SetPortManager m pm) ;;
  modify (with_modules (alter (fun _ => {| port_manager := Some pm |}) m)).

Definition release (ports : gset N * gset N) (pm : PortManager) : PortManager := {|
  tcp_ports := tcp_ports pm ∖ ports.1;
  udp_ports := udp_ports pm ∖ ports.2
|}.

(** The ports of module [m] are released in the port manager it was given. *)
Definition release_ports (ports : gset N * gset N) (m : string) (w : World) : World :=
  match Module__instance w !! m with
  | Some {| port_manager := Some l |} => with_heap (alter (release ports) l) w
  | _ => w
  end.

(** ** Collaborators and handlers *)

Section Handlers.

Context (env : Env).

Definition connect_to_db (app : FastAPI) : M unit :=
  call (c_connect_to_db app) (outcome (db_connect env)).

Definition get_computes (app : FastAPI) : M (list Compute) :=
  call (c_get_computes app) (lift (db_computes env)).

(** [Controller.instance().start(computes)] *)
Definition Controller_start (computes : list Compute) : M unit :=
  call (c_Controller_start computes) (outcome (controller_start env computes)).

(** [Controller.instance().stop()] *)
Definition Controller_stop : M unit :=
  call c_Controller_stop (outcome (controller_stop env)).

(** [HTTPClient.close_session()] *)
Definition HTTPClient_close_session : M unit :=
  call c_HTTPClient_close_session (outcome (http_close_session env)).

(** Modelled from the spec: [module.instance()], whose classes (the
    members of [gns3server.compute.MODULES]) are missing, returns the
    existing singleton of the class
    ([module._instance], which the test fixtures reset to [None]) or
    creates it on first call; only the creation can raise.  The result is
    the reference to the singleton, one per class. *)
Definition instance (module : string) : M string :=
  call (c_instance module)
    (w <- get_world ;;
     match Module__instance w !! module with
     | Some _ => ret module
     | None =>
         outcome (module_init env module) ;;
         modify (with_modules (insert module {| port_manager := None |})) ;;
         ret module
     end).

(** Modelled from the spec: [m.unload()], whose classes are missing,
    releases ports the module holds in the port manager it was given and
    returns, or raises. *)
Definition unload (m : string) : M unit :=
  call (c_unload m)
    (modify (release_ports (module_releases env m) m) ;;
     outcome (module_unload env m)).

(** [start_app], lines 40-78, the coroutine function that
    [create_startup_handler(app)] returns. *)
Definition start_app (app : FastAPI) : M unit :=
  (* lines 41-43 *)
  setLevel ERROR ;;
  (* lines 45-53 *)
  (if String.prefix "win" (sys_platform env)
   then call_later WAKEUP_DELAY wakeup_callback
   else ret tt) ;;
  (* lines 55-58 *)
  (if decide (log_effective_level env = DEBUG)
   then set_debug true
   else ret tt) ;;
  (* line 61 *)
  connect_to_db app ;;
  (* line 64 *)
  computes <- get_computes app ;;
  (* line 66 *)
  Controller_start computes ;;
  (* lines 71-73: asyncio.ensure_future(Qemu.instance().list_images()) *)
  qemu <- instance "Qemu" ;;
  ensure_future (list_images_of qemu) ;;
  (* lines 75-78 *)
  for_each (MODULES env) (fun module =>
    log_debug (Loading_module module) ;;
    m <- instance module ;;
    pm <- PortManager_instance ;;
    set_port_manager m pm).

(** [create_startup_handler], lines 35-80: defines the coroutine function
    and returns it. *)
Definition create_startup_handler (app : FastAPI) : M (M unit) :=
  ret (start_app app).

(** [shutdown_handler], lines 88-101, the coroutine function that
    [create_shutdown_handler(app)] returns. *)
Definition shutdown_handler (app : FastAPI) : M unit :=
  (* line 89 *)
  HTTPClient_close_session ;;
  (* line 90 *)
  Controller_stop ;;
  (* lines 92-95 *)
  for_each (MODULES env) (fun module =>
    log_debug (Unloading_module module) ;;
    m <- instance module ;;
    unload m) ;;
  (* lines 97-101; each PortManager.instance() of the source is a call *)
  pm <- PortManager_instance ;;
  tcp <- get_tcp_ports pm ;;
  (if decide (tcp = ∅)
   then ret tt
   else pm <- PortManager_instance ;;
        tcp <- get_tcp_ports pm ;;
        log_warning (TCP_ports_are_still_used tcp)) ;;
  pm <- PortManager_instance ;;
  udp <- get_udp_ports pm ;;
  (if decide (udp = ∅)
   then ret tt
   else pm <- PortManager_instance ;;
        udp <- get_udp_ports pm ;;
        log_warning (UDP_ports_are_still_used udp)).

(** [create_shutdown_handler], lines 83-103. *)
Definition create_shutdown_handler (app : FastAPI) : M (M unit) :=
  ret (shutdown_handler app).

(** What the event loop does once the handler has returned: the body of a
    scheduled coroutine. *)
Definition run_coroutine (co : Coroutine) : M unit :=
  match co with
  | list_images_of m => call (c_list_images m) (outcome (qemu_list_images env))
  end.

(** The loop runs a pending task to its end and stores the outcome in the
    task; an exception of the coroutine stays there. *)
Definition run_task (t : Task) (w : World) : Task * World :=
  match task_outcome t with
  | Some _ => (t, w)
  | None =>
      let (r, w') := run_coroutine (task_coro t) w in
      ({| task_coro := task_coro t; task_outcome := Some r |}, w')
  end.

Fixpoint run_tasks (ts : list Task) (w : World) : list Task * World :=
  match ts with
  | [] => ([], w)
  | t :: rest =>
      let (t', w1) := run_task t w in
      let (rest', w2) := run_tasks rest w1 in
      (t' :: rest', w2)
  end.

(** One turn of the loop over the tasks it holds. *)
Definition loop_run_tasks (w : World) : World :=
  let (ts, w') := run_tasks (loop_tasks w) w in
  with_tasks (fun _ => ts) w'.

End Handlers.

(** One turn of the loop over the timers that are due: each is removed
    and its callback runs. *)
Definition loop_fire_timers (w : World) : World :=
  snd (for_each (loop_timers w) (fun t => run_callback t.2)
         (with_timers (fun _ => []) w)).

(** * What a run does, as lists of events

    The events and the outcome of a run are computed here from the
    outcomes of the collaborators alone; the proofs below show that the
    handlers leave exactly these events. *)

(** The loop body of [start_app] and of [shutdown_handler]. *)
Definition load (env : Env) (module : string) : M unit :=
  log_debug (Loading_module module) ;;
  m <- instance env module ;;
  pm <- PortManager_instance ;;
  set_port_manager m pm.

Definition drain (env : Env) (module : string) : M unit :=
  log_debug (Unloading_module module) ;;
  m <- instance env module ;;
  unload env m.

(** The reference [PortManager.instance()] returns in [w]. *)
Definition the_port_manager (w : World) : loc :=
  match PortManager__instance w with
  | Some l => l
  | None => length (heap w)
  end.

(** The port manager [PortManager.instance()] gives access to in [w]. *)
Definition current_ports (w : World) : PortManager :=
  match PortManager__instance w with
  | Some l => deref w l
  | None => new_PortManager
  end.

(** What [module.instance()] raises in [w], if anything. *)
Definition init_error (env : Env) (w : World) (m : string) : option exn :=
  match Module__instance w !! m with
  | Some _ => None
  | None => module_init env m
  end.

Section Loading.

Context (ie : string -> option exn) (pm : loc).

(** The events of the loop over [ms]. *)
Fixpoint loading_trace (ms : list string) : list Event :=
  match ms with
  | [] => []
  | m :: rest =>
      Log DEBUG (Loading_module m) :: Begin (c_instance m) ::
      match ie m with
      | Some e => [Failed (c_instance m) e]
      | None => Done (c_instance m) :: SetPortManager m pm :: loading_trace rest
      end
  end.

(** Its outcome. *)
Fixpoint loading_result (ms : list string) : result unit :=
  match ms with
  | [] => Ok tt
  | m :: rest =>
      match ie m with
      | Some e => Raise e
      | None => loading_result rest
      end
  end.

(** The modules it gets through. *)
Fixpoint loaded (ms : list string) : list string :=
  match ms with
  | [] => []
  | m :: rest =>
      match ie m with
      | Some _ => []
      | None => m :: loaded rest
      end
  end.

End Loading.

(** The steps before the loop. *)
Definition steps (env : Env) (app : FastAPI) : M unit :=
  setLevel ERROR ;;
  (if String.prefix "win" (sys_platform env)
   then call_later WAKEUP_DELAY wakeup_callback
   else ret tt) ;;
  (if decide (log_effective_level env = DEBUG)
   then set_debug true
   else ret tt) ;;
  connect_to_db env app ;;
  computes <- get_computes env app ;;
  Controller_start env computes ;;
  qemu <- instance env "Qemu" ;;
  ensure_future (list_images_of qemu).

(** The timers [start_app] adds to the loop. *)
Definition ticks (env : Env) : list (N * Callback) :=
  if String.prefix "win" (sys_platform env)
  then [(WAKEUP_DELAY, wakeup_callback)]
  else [].

(** The events of the configuration of the loop and of the logger. *)
Definition header (env : Env) : list Event :=
  SetLevel ERROR ::
  (if String.prefix "win" (sys_platform env)
   then [CallLater WAKEUP_DELAY wakeup_callback]
   else []) ++
  (if decide (log_effective_level env = DEBUG)
   then [SetDebug true]
   else []).

Section Startup.

Context (env : Env) (app : FastAPI) (ie : string -> option exn).

(** The events of the steps, followed by [k] when all of them return. *)
Definition steps_trace (k : list Event) : list Event :=
  header env ++
  Begin (c_connect_to_db app) ::
  match db_connect env with
  | Some e => [Failed (c_connect_to_db app) e]
  | None =>
    Done (c_connect_to_db app) :: Begin (c_get_computes app) ::
    match db_computes env with
    | Raise e => [Failed (c_get_computes app) e]
    | Ok cs =>
      Done (c_get_computes app) :: Begin (c_Controller_start cs) ::
      match controller_start env cs with
      | Some e => [Failed (c_Controller_start cs) e]
      | None =>
        Done (c_Controller_start cs) :: Begin (c_instance "Qemu") ::
        match ie "Qemu" with
        | Some e => [Failed (c_instance "Qemu") e]
        | None =>
          Done (c_instance "Qemu") :: EnsureFuture (list_images_of "Qemu") :: k
        end
      end
    end
  end.

(** The outcome of the steps. *)
Definition steps_result : result unit :=
  match db_connect env with
  | Some e => Raise e
  | None =>
    match db_computes env with
    | Raise e => Raise e
    | Ok cs =>
      match controller_start env cs with
      | Some e => Raise e
      | None =>
        match ie "Qemu" with
        | Some e => Raise e
        | None => Ok tt
        end
      end
    end
  end.

(** The events and the outcome of a whole run of [start_app]. *)
Definition startup_trace (pm : loc) : list Event :=
  steps_trace (loading_trace ie pm (MODULES env)).

Definition startup_result : result unit :=
  match steps_result with
  | Ok _ => loading_result ie (MODULES env)
  | Raise e => Raise e
  end.

End Startup.

(** The last lines of [shutdown_handler], lines 97-101. *)
Definition report_leaks : M unit :=
  pm <- PortManager_instance ;;
  tcp <- get_tcp_ports pm ;;
  (if decide (tcp = ∅)
   then ret tt
   else pm <- PortManager_instance ;;
        tcp <- get_tcp_ports pm ;;
        log_warning (TCP_ports_are_still_used tcp)) ;;
  pm <- PortManager_instance ;;
  udp <- get_udp_ports pm ;;
  (if decide (udp = ∅)
   then ret tt
   else pm <- PortManager_instance ;;
        udp <- get_udp_ports pm ;;
        log_warning (UDP_ports_are_still_used udp)).

(** One warning for each protocol that still has ports in use, TCP first. *)
Definition leak_report (pm : PortManager) : list Event :=
  (if decide (tcp_ports pm = ∅)
   then []
   else [Log WARNING (TCP_ports_are_still_used (tcp_ports pm))]) ++
  (if decide (udp_ports pm = ∅)
   then []
   else [Log WARNING (UDP_ports_are_still_used (udp_ports pm))]).

Section Unloading.

Context (env : Env) (ie : string -> option exn).

(** The events of the loop of [shutdown_handler] over [ms]. *)
Fixpoint unloading_trace (ms : list string) : list Event :=
  match ms with
  | [] => []
  | m :: rest =>
      Log DEBUG (Unloading_module m) :: Begin (c_instance m) ::
      match ie m with
      | Some e => [Failed (c_instance m) e]
      | None =>
          Done (c_instance m) :: Begin (c_unload m) ::
          match module_unload env m with
          | Some e => [Failed (c_unload m) e]
          | None => Done (c_unload m) :: unloading_trace rest
          end
      end
  end.

(** Its outcome. *)
Fixpoint unloading_result (ms : list string) : result unit :=
  match ms with
  | [] => Ok tt
  | m :: rest =>
      match ie m with
      | Some e => Raise e
      | None =>
          match module_unload env m with
          | Some e => Raise e
          | None => unloading_result rest
          end
      end
  end.

(** The events of a run of [shutdown_handler]; [k] are those of its last
    lines. *)
Definition shutdown_trace (k : list Event) : list Event :=
  Begin c_HTTPClient_close_session ::
  match http_close_session env with
  | Some e => [Failed c_HTTPClient_close_session e]
  | None =>
    Done c_HTTPClient_close_session :: Begin c_Controller_stop ::
    match controller_stop env with
    | Some e => [Failed c_Controller_stop e]
    | None =>
      Done c_Controller_stop ::
      unloading_trace (MODULES env) ++
      match unloading_result (MODULES env) with
      | Ok _ => k
      | Raise _ => []
      end
    end
  end.

(** The outcome of a run of [shutdown_handler]. *)
Definition shutdown_result : result unit :=
  match http_close_session env with
  | Some e => Raise e
  | None =>
    match controller_stop env with
    | Some e => Raise e
    | None => unloading_result (MODULES env)
    end
  end.

End Unloading.

(** ** Events of a run and their order *)

(** The events a run of [m] from [w] adds to the trace. *)
Definition run_events {A : Type} (m : M A) (w : World) : list Event :=
  drop (length (trace w)) (trace (m w).2).

(** In [tr], every event that satisfies [Q] comes after an event that
    satisfies [P]. *)
Definition follows (tr : list Event) (P Q : Event -> Prop) : Prop :=
  forall j e, tr !! j = Some e -> Q e ->
    exists i a, i < j /\ tr !! i = Some a /\ P a.

(** The events of the module loop of [start_app]. *)
Definition loading_event (e : Event) : Prop :=
  match e with
  | Log DEBUG (Loading_module _) => True
  | Begin (c_instance _) | Done (c_instance _) | Failed (c_instance _) _ => True
  | SetPortManager _ _ => True
  | _ => False
  end.

(** Obtaining a module's singleton, or giving it the port manager. *)
Definition touches_module (e : Event) : Prop :=
  match e with
  | Begin (c_instance _) | SetPortManager _ _ => True
  | _ => False
  end.

(** [env] with another outcome for the image listing. *)
Definition with_list_images (o : option exn) (env : Env) : Env := {|
  sys_platform := sys_platform env;
  log_effective_level := log_effective_level env;
  MODULES := MODULES env;
  db_connect := db_connect env;
  db_computes := db_computes env;
  controller_start := controller_start env;
  controller_stop := controller_stop env;
  http_close_session := http_close_session env;
  module_init := module_init env;
  module_unload := module_unload env;
  module_releases := module_releases env;
  qemu_list_images := o
|}.

(** The events that belong to the module loop of [start_app] only. *)
Definition loading_step (e : Event) : Prop :=
  match e with
  | Log _ (Loading_module _) | SetPortManager _ _ => True
  | _ => False
  end.

(** The timers asked of the loop, in order. *)
Definition call_laters (d : list Event) : list (N * Callback) :=
  omap (fun e => match e with CallLater n cb => Some (n, cb) | _ => None end) d.

(** The start of a call to a collaborator. *)
Definition a_call (e : Event) : Prop :=
  match e with
  | Begin _ => True
  | _ => False
  end.

(** The modules given the port manager, in order. *)
Definition injection_order (d : list Event) : list string :=
  omap (fun e => match e with SetPortManager m _ => Some m | _ => None end) d.

(** The modules whose unload hook is invoked, in order. *)
Definition unload_order (d : list Event) : list string :=
  omap (fun e => match e with Begin (c_unload m) => Some m | _ => None end) d.

(** The events of the module loop of [shutdown_handler]. *)
Definition unloading_event (e : Event) : Prop :=
  match e with
  | Log DEBUG (Unloading_module _) => True
  | Begin (c_instance _) | Done (c_instance _) | Failed (c_instance _) _ => True
  | Begin (c_unload _) | Done (c_unload _) | Failed (c_unload _) _ => True
  | _ => False
  end.

(** ** Statements that do not hold of the handlers, as they were made *)

(** Whatever step raises, the controller is stopped, every module is
    unloaded and the run ends with the report on the ports in use. *)
Definition shutdown_steps_independent (env : Env) (app : FastAPI) (w : World) : Prop :=
  Begin c_Controller_stop ∈ run_events (shutdown_handler env app) w /\
  (forall m, m ∈ MODULES env ->
     Begin (c_unload m) ∈ run_events (shutdown_handler env app) w) /\
  leak_report (current_ports (shutdown_handler env app w).2)
    `suffix_of` run_events (shutdown_handler env app) w.

(** The modules are unloaded in the reverse of the order in which they
    were given the port manager. *)
Definition drained_in_reverse (env : Env) (app : FastAPI) (w1 w2 : World) : Prop :=
  unload_order (run_events (shutdown_handler env app) w2) =
    rev (injection_order (run_events (start_app env app) w1)).

(** The start hook of every module is invoked. *)
Definition start_hooks_invoked (env : Env) (app : FastAPI) (w : World) : Prop :=
  forall m, m ∈ MODULES env ->
    Begin (c_start m) ∈ run_events (start_app env app) w.

(** The loop completes and gets to every module that can be obtained. *)
Definition loading_isolated (env : Env) (app : FastAPI) (w : World) : Prop :=
  (start_app env app w).1 = Ok tt /\
  forall m, m ∈ MODULES env -> init_error env w m = None ->
    m ∈ injection_order (run_events (start_app env app) w).

(** Every run ends with the report: for each protocol that still has ports
    in use, the warning is given. *)
Definition leaks_always_reported (env : Env) (app : FastAPI) (w : World) : Prop :=
  forall pm, current_ports (shutdown_handler env app w).2 = pm ->
    (tcp_ports pm <> ∅ ->
     Log WARNING (TCP_ports_are_still_used (tcp_ports pm))
       ∈ run_events (shutdown_handler env app) w) /\
    (udp_ports pm <> ∅ ->
     Log WARNING (UDP_ports_are_still_used (udp_ports pm))
       ∈ run_events (shutdown_handler env app) w).

(** Once the database is connected, the handler completes. *)
Definition later_failures_isolated (env : Env) (app : FastAPI) (w : World) : Prop :=
  db_connect env = None -> (start_app env app w).1 = Ok tt.

(** The timer is asked of the loop after the module loop: every event of
    the loop comes before the request for the timer. *)
Definition tick_after_loading (d : list Event) : Prop :=
  forall i j e,
    d !! i = Some (CallLater WAKEUP_DELAY wakeup_callback) ->
    d !! j = Some e -> loading_step e -> j < i.

(** ** Hosts and worlds to run the handlers on *)

Definition the_app : FastAPI := {| app_id := 0 |}.

Definition linux_host : Env := {|
  sys_platform := "linux";
  log_effective_level := INFO;
  MODULES := ["VPCS"; "Dynamips"; "Qemu"];
  db_connect := None;
  db_computes :=
    Ok [{| compute_id := "local"; compute_host := "127.0.0.1"; compute_port := 3080%N |}];
  controller_start := fun _ => None;
  controller_stop := None;
  http_close_session := None;
  module_init := fun _ => None;
  module_unload := fun _ => None;
  module_releases := fun _ => (∅, ∅);
  qemu_list_images := None
|}.

Definition windows_host : Env := {|
  sys_platform := "win32";
  log_effective_level := DEBUG;
  MODULES := ["VPCS"; "Dynamips"; "Qemu"];
  db_connect := None;
  db_computes := Ok [];
  controller_start := fun _ => None;
  controller_stop := None;
  http_close_session := None;
  module_init := fun _ => None;
  module_unload := fun _ => None;
  module_releases := fun _ => (∅, ∅);
  qemu_list_images := Some "OSError"
|}.

(** The HTTP session cannot be closed. *)
Definition closing_fails : Env := {|
  sys_platform := "linux";
  log_effective_level := INFO;
  MODULES := ["VPCS"; "Dynamips"; "Qemu"];
  db_connect := None;
  db_computes := Ok [];
  controller_start := fun _ => None;
  controller_stop := None;
  http_close_session := Some "ClientError";
  module_init := fun _ => None;
  module_unload := fun _ => None;
  module_releases := fun _ => (∅, ∅);
  qemu_list_images := None
|}.

(** The unload hook of Dynamips raises. *)
Definition unload_fails : Env := {|
  sys_platform := "linux";
  log_effective_level := INFO;
  MODULES := ["VPCS"; "Dynamips"; "Qemu"];
  db_connect := None;
  db_computes := Ok [];
  controller_start := fun _ => None;
  controller_stop := None;
  http_close_session := None;
  module_init := fun _ => None;
  module_unload := fun m => if String.eqb m "Dynamips" then Some "DynamipsError" else None;
  module_releases := fun _ => (∅, ∅);
  qemu_list_images := None
|}.

(** Dynamips is not installed: its singleton cannot be created. *)
Definition dynamips_missing : Env := {|
  sys_platform := "linux";
  log_effective_level := INFO;
  MODULES := ["VPCS"; "Dynamips"; "Qemu"];
  db_connect := None;
  db_computes := Ok [];
  controller_start := fun _ => None;
  controller_stop := None;
  http_close_session := None;
  module_init := fun m => if String.eqb m "Dynamips" then Some "DynamipsError" else None;
  module_unload := fun _ => None;
  module_releases := fun _ => (∅, ∅);
  qemu_list_images := None
|}.

(** The computes cannot be read from the database. *)
Definition computes_unreadable : Env := {|
  sys_platform := "linux";
  log_effective_level := INFO;
  MODULES := ["VPCS"; "Dynamips"; "Qemu"];
  db_connect := None;
  db_computes := Raise "SQLAlchemyError";
  controller_start := fun _ => None;
  controller_stop := None;
  http_close_session := None;
  module_init := fun _ => None;
  module_unload := fun _ => None;
  module_releases := fun _ => (∅, ∅);
  qemu_list_images := None
|}.

(** A world whose port manager still holds TCP port 5000 and UDP port
    10000. *)
Definition leaking_world : World := {|
  trace := [];
  loop_timers := [];
  loop_tasks := [];
  loop_debug := false;
  asyncio_level := NOTSET;
  heap := [{| tcp_ports := {[ 5000%N ]}; udp_ports := {[ 10000%N ]} |}];
  PortManager__instance := Some 0;
  Module__instance := ∅
|}.

(** The unload hook of VPCS releases TCP port 5000 and UDP port 10000. *)
Definition releasing_host : Env := {|
  sys_platform := "linux";
  log_effective_level := INFO;
  MODULES := ["VPCS"; "Dynamips"; "Qemu"];
  db_connect := None;
  db_computes := Ok [];
  controller_start := fun _ => None;
  controller_stop := None;
  http_close_session := None;
  module_init := fun _ => None;
  module_unload := fun _ => None;
  module_releases :=
    fun m => if String.eqb m "VPCS" then ({[ 5000%N ]}, {[ 10000%N ]}) else (∅, ∅);
  qemu_list_images := None
|}.

(** The world a startup leaves, once TCP port 5000 and UDP port 10000 have
    been taken from the port manager. *)
Definition world_in_use : World :=
  with_heap (fun _ => [{| tcp_ports := {[ 5000%N ]}; udp_ports := {[ 10000%N ]} |}])
    (start_app releasing_host the_app empty_world).2.

(** ** What the handlers keep, and the worlds without dangling reference *)

(** The singleton of class [m] is there: created with no port manager when
    it was missing. *)
Definition with_singleton (m : string) (mods : gmap string Module) : gmap string Module :=
  match mods !! m with
  | Some _ => mods
  | None => <[m := {| port_manager := None |}]> mods
  end.

(** The steps of [shutdown_handler] before its last lines (lines 89-95). *)
Definition drains (env : Env) : M unit :=
  HTTPClient_close_session env ;;
  Controller_stop env ;;
  for_each (MODULES env) (drain env).

(** What a step of [shutdown_handler] before its last lines keeps. *)
Definition drain_keeps (w w' : World) : Prop :=
  asyncio_level w' = asyncio_level w /\
  loop_debug w' = loop_debug w /\
  loop_timers w' = loop_timers w /\
  loop_tasks w' = loop_tasks w /\
  PortManager__instance w' = PortManager__instance w /\
  length (heap w') = length (heap w) /\
  (forall m x, Module__instance w !! m = Some x -> Module__instance w' !! m = Some x).

(** No reference dangles: the singleton of [PortManager] and the
    [port_manager] attribute of every module singleton are objects of the
    heap. *)
Definition world_ok (w : World) : Prop :=
  (forall l, PortManager__instance w = Some l -> l < length (heap w)) /\
  (forall m mo l,
     Module__instance w !! m = Some mo -> port_manager mo = Some l ->
     l < length (heap w)).

(** ** The fixtures of [tests/conftest.py] that act on the singletons and on
    the platform *)

(** The attributes of the module [sys] that [conftest.py] reads and writes;
    an attribute that was never assigned is [None]. *)
Record Sys : Type := {
  Sys_platform : string;                    (* sys.platform *)
  Sys_original_platform : option string;    (* sys.original_platform *)
  Sys_plaform : option string;              (* sys.plaform, as lines 275, 287, 299 spell it *)
  Sys_called_from_test : option bool        (* sys._called_from_test *)
}.

(** What a test session holds: the world of the handlers, the
    [console_host] attribute of the port managers, and [sys]. *)
Record Session : Type := {
  world : World;
  console_host : gmap loc string;
  sys : Sys
}.

(** A generator fixture: what runs before the [yield], which may keep a
    local value for later, and what runs after it. *)
Record Fixture : Type := {
  setup : Session -> string * Session;
  teardown : string -> Session -> Session
}.

(** The fixture around a test body. *)
Definition use (f : Fixture) (body : Session -> Session) (s : Session) : Session :=
  let (kept, s1) := setup f s in teardown f kept (body s1).

(** [env] on another platform. *)
Definition with_platform (p : string) (env : Env) : Env := {|
  sys_platform := p;
  log_effective_level := log_effective_level env;
  MODULES := MODULES env;
  db_connect := db_connect env;
  db_computes := db_computes env;
  controller_start := controller_start env;
  controller_stop := controller_stop env;
  http_close_session := http_close_session env;
  module_init := module_init env;
  module_unload := module_unload env;
  module_releases := module_releases env;
  qemu_list_images := qemu_list_images env
|}.

Module Conftest.

(** [PortManager._instance = None] *)
Definition without_PortManager (w : World) : World := {|
  trace := trace w;
  loop_timers := loop_timers w;
  loop_tasks := loop_tasks w;
  loop_debug := loop_debug w;
  asyncio_level := asyncio_level w;
  heap := heap w;
  PortManager__instance := None;
  Module__instance := Module__instance w
|}.

Definition with_sys_platform (p : string) (s : Session) : Session := {|
  world := world s;
  console_host := console_host s;
  sys := {| Sys_platform := p;
            Sys_original_platform := Sys_original_platform (sys s);
            Sys_plaform := Sys_plaform (sys s);
            Sys_called_from_test := Sys_called_from_test (sys s) |}
|}.

Definition with_sys_plaform (p : string) (s : Session) : Session := {|
  world := world s;
  console_host := console_host s;
  sys := {| Sys_platform := Sys_platform (sys s);
            Sys_original_platform := Sys_original_platform (sys s);
            Sys_plaform := Some p;
            Sys_called_from_test := Sys_called_from_test (sys s) |}
|}.

(** Lines 30-31, at import:
    [sys._called_from_test = True; sys.original_platform = sys.platform]. *)
Definition at_import (s : Session) : Session := {|
  world := world s;
  console_host := console_host s;
  sys := {| Sys_platform := Sys_platform (sys s);
            Sys_original_platform := Some (Sys_platform (sys s));
            Sys_plaform := Sys_plaform (sys s);
            Sys_called_from_test := Some true |}
|}.

(** [port_manager], lines 244-251: the singleton is forgotten, a new one is
    obtained and its console host is set. *)
Definition port_manager (s : Session) : result loc * Session :=
  match PortManager_instance (without_PortManager (world s)) with
  | (Ok p, w) =>
      (Ok p,
       {| world := w;
          console_host := <[p := "127.0.0.1"]> (console_host s);
          sys := sys s |})
  | (Raise e, w) =>
      (Raise e, {| world := w; console_host := console_host s; sys := sys s |})
  end.

(** [darwin_platform], lines 266-275. *)
Definition darwin_platform : Fixture := {|
  setup := fun s => (Sys_platform (sys s), with_sys_platform "darwin10.10" s);
  teardown := fun old_platform s => with_sys_plaform old_platform s
|}.

(** [windows_platform], lines 278-287. *)
Definition windows_platform : Fixture := {|
  setup := fun s => (Sys_platform (sys s), with_sys_platform "win10" s);
  teardown := fun old_platform s => with_sys_plaform old_platform s
|}.

(** [linux_platform], lines 290-299. *)
Definition linux_platform : Fixture := {|
  setup := fun s => (Sys_platform (sys s), with_sys_platform "linuxdebian" s);
  teardown := fun old_platform s => with_sys_plaform old_platform s
|}.

(** Line 385 of [run_around_tests]:
    [sys.platform = sys.original_platform]. *)
Definition restore_platform (s : Session) : result unit * Session :=
  match Sys_original_platform (sys s) with
  | Some p => (Ok tt, with_sys_platform p s)
  | None => (Raise "AttributeError", s)
  end.

End Conftest.

(** A session in which a startup has run on Linux. *)
Definition started_session : Session := {|
  world := (start_app linux_host the_app empty_world).2;
  console_host := ∅;
  sys := {| Sys_platform := "linux";
            Sys_original_platform := None;
            Sys_plaform := None;
            Sys_called_from_test := None |}
|}.

(** * Proofs *)

Ltac run_ops :=
  cbv beta iota delta
    [bind ret raise lift get_world modify emit call outcome
     log_debug log_warning setLevel set_debug call_later ensure_future wakeup
     PortManager_instance get_tcp_ports get_udp_ports set_port_manager
     connect_to_db get_computes Controller_start Controller_stop
     HTTPClient_close_session instance unload
     with_trace with_timers with_tasks with_debug with_level with_heap
     with_PortManager with_modules
     trace loop_timers loop_tasks loop_debug asyncio_level heap
     PortManager__instance Module__instance];
  rewrite <- ?app_assoc; cbn [app].

Ltac run := unfold load, drain; run_ops.

Lemma load_raises env m w e :
  init_error env w m = Some e ->
  load env m w =
    (Raise e,
     with_trace (trace w ++ [Log DEBUG (Loading_module m);
                             Begin (c_instance m); Failed (c_instance m) e]) w).
Proof.
  unfold init_error. intros H. destruct w as [tr ti ta db lv hp pmi mi].
  cbn [Module__instance] in H. run.
  destruct (mi !! m); [discriminate|]. rewrite H. run. reflexivity.
Qed.

Lemma load_returns env m w :
  init_error env w m = None ->
  exists w',
    load env m w = (Ok tt, w') /\
    trace w' = trace w ++ [Log DEBUG (Loading_module m); Begin (c_instance m);
                           Done (c_instance m);
                           SetPortManager m (the_port_manager w)] /\
    PortManager__instance w' = Some (the_port_manager w) /\
    Module__instance w' !! m =
      Some {| port_manager := Some (the_port_manager w) |} /\
    (forall m', m' <> m -> Module__instance w' !! m' = Module__instance w !! m') /\
    loop_timers w' = loop_timers w /\
    loop_tasks w' = loop_tasks w /\
    current_ports w' = current_ports w.
Proof.
  unfold init_error, the_port_manager, current_ports, deref.
  intros H. destruct w as [tr ti ta db lv hp pmi mi].
  cbn [Module__instance PortManager__instance heap] in *. run.
  destruct (mi !! m) as [mo|] eqn:Hm; [|rewrite H]; destruct pmi as [l|]; run;
    eexists; (split; [reflexivity|]); cbn [trace PortManager__instance
      Module__instance loop_timers loop_tasks heap];
    repeat split; try reflexivity.
  all: try (rewrite lookup_alter_eq).
  all: try (intros m' Hne; rewrite lookup_alter_ne by congruence).
  all: try rewrite lookup_insert_eq; try rewrite Hm; try reflexivity.
  all: try (rewrite lookup_insert_ne by congruence; reflexivity).
  all: rewrite lookup_app_r, Nat.sub_diag by lia; reflexivity.
Qed.

Lemma load_keeps_init_error env m w w' :
  load env m w = (Ok tt, w') ->
  forall m', init_error env w' m' = init_error env w m'.
Proof.
  intros Hrun m'. destruct (init_error env w m) as [e|] eqn:Hie.
  - rewrite (load_raises _ _ _ _ Hie) in Hrun. discriminate.
  - destruct (load_returns _ _ _ Hie) as (w1 & Heq & _ & _ & Hm & Hother & _).
    rewrite Heq in Hrun. injection Hrun as <-.
    unfold init_error in *. destruct (decide (m' = m)) as [->|Hne].
    + rewrite Hm. destruct (Module__instance w !! m); [reflexivity|]. now rewrite Hie.
    + now rewrite Hother.
Qed.

Lemma the_port_manager_Some w l :
  PortManager__instance w = Some l -> the_port_manager w = l.
Proof. unfold the_port_manager. now intros ->. Qed.

Lemma for_each_cons {A : Type} (x : A) (xs : list A) (body : A -> M unit) (w : World) :
  for_each (x :: xs) body w =
    match body x w with
    | (Ok _, w') => for_each xs body w'
    | (Raise e, w') => (Raise e, w')
    end.
Proof. reflexivity. Qed.

Lemma loading_run env ie ms : forall w,
  (forall m, init_error env w m = ie m) ->
  exists w',
    for_each ms (load env) w = (loading_result ie ms, w') /\
    trace w' = trace w ++ loading_trace ie (the_port_manager w) ms /\
    loop_timers w' = loop_timers w /\
    loop_tasks w' = loop_tasks w /\
    current_ports w' = current_ports w /\
    (loaded ie ms = [] -> PortManager__instance w' = PortManager__instance w) /\
    (loaded ie ms <> [] -> PortManager__instance w' = Some (the_port_manager w)) /\
    (forall m, m ∈ loaded ie ms ->
       Module__instance w' !! m =
         Some {| port_manager := Some (the_port_manager w) |}) /\
    (forall m, m ∉ loaded ie ms ->
       Module__instance w' !! m = Module__instance w !! m).
Proof.
  induction ms as [|m rest IH]; intros w Hie.
  - exists w. cbn. rewrite app_nil_r.
    repeat split; try reflexivity;
      [intros H; destruct H; reflexivity | intros m Hin; inversion Hin].
  - rewrite for_each_cons. cbn [loading_trace loading_result loaded].
    specialize (Hie m) as Hm. destruct (ie m) as [e|].
    + rewrite (load_raises _ _ _ _ Hm). eexists. split; [reflexivity|].
      cbn. repeat split; try reflexivity;
        [intros H; destruct H; reflexivity | intros m' Hin; inversion Hin].
    + destruct (load_returns _ _ _ Hm) as (w1 & Heq & Htr & Hpm & Hmod & Hother & Hti & Hta & Hcur).
      rewrite Heq.
      destruct (IH w1) as (w' & Hrun & Htr' & Hti' & Hta' & Hcur' & Hpm0 & Hpm' & Hin' & Hout').
      { intros m'. rewrite (load_keeps_init_error _ _ _ _ Heq). apply Hie. }
      rewrite (the_port_manager_Some _ _ Hpm) in *.
      exists w'. split; [exact Hrun|].
      split. { rewrite Htr', Htr, <- app_assoc. reflexivity. }
      split; [congruence|]. split; [congruence|]. split; [congruence|].
      split; [discriminate|]. split.
      { intros _. destruct (loaded ie rest) eqn:Hl.
        - rewrite Hpm0 by reflexivity. exact Hpm.
        - apply Hpm'. discriminate. }
      split.
      { intros m' Hin. destruct (decide (m' ∈ loaded ie rest)) as [Hr|Hr].
        - apply Hin'; exact Hr.
        - apply elem_of_cons in Hin as [->|Hin]; [|contradiction].
          rewrite Hout' by exact Hr. exact Hmod. }
      { intros m' Hnin. apply not_elem_of_cons in Hnin as [Hne Hnin].
        rewrite Hout' by exact Hnin. apply Hother. exact Hne. }
Qed.

Lemma steps_trace_returned env app ie (k : list Event) :
  steps_result env ie = Ok tt ->
  steps_trace env app ie k = steps_trace env app ie [] ++ k.
Proof.
  unfold steps_result, steps_trace.
  destruct (db_connect env); [discriminate|].
  destruct (db_computes env) as [cs|]; [|discriminate].
  destruct (controller_start env cs); [discriminate|].
  destruct (ie "Qemu"); [discriminate|]. intros _.
  rewrite <- app_assoc. reflexivity.
Qed.

Lemma steps_trace_raised env app ie (k : list Event) (e : exn) :
  steps_result env ie = Raise e ->
  steps_trace env app ie k = steps_trace env app ie [].
Proof.
  unfold steps_result, steps_trace.
  destruct (db_connect env); [reflexivity|].
  destruct (db_computes env) as [cs|]; [|reflexivity].
  destruct (controller_start env cs); [reflexivity|].
  destruct (ie "Qemu"); [reflexivity|discriminate].
Qed.

Lemma start_app_steps env app w :
  start_app env app w =
    match steps env app w with
    | (Ok _, w1) => for_each (MODULES env) (load env) w1
    | (Raise e, w1) => (Raise e, w1)
    end.
Proof.
  unfold start_app, steps.
  change (for_each (MODULES env) _) with (for_each (MODULES env) (load env)).
  destruct w as [tr ti ta db lv hp pmi mi].
  destruct (String.prefix "win" (sys_platform env));
    destruct (decide (log_effective_level env = DEBUG));
    destruct (db_connect env) eqn:H1;
    destruct (db_computes env) as [cs|] eqn:H2;
    try destruct (controller_start env cs) eqn:H3;
    destruct (mi !! "Qemu") eqn:H4;
    destruct (module_init env "Qemu") eqn:H5;
    run_ops; rewrite ?H1, ?H2; run_ops; rewrite ?H3; run_ops;
    rewrite ?H4; run_ops; rewrite ?H5; run_ops; reflexivity.
Qed.

Lemma steps_run env app w :
  exists w1,
    steps env app w = (steps_result env (init_error env w), w1) /\
    trace w1 = trace w ++ steps_trace env app (init_error env w) [] /\
    loop_timers w1 = loop_timers w ++ ticks env /\
    loop_tasks w1 =
      loop_tasks w ++
      match steps_result env (init_error env w) with
      | Ok _ => [{| task_coro := list_images_of "Qemu"; task_outcome := None |}]
      | Raise _ => []
      end /\
    PortManager__instance w1 = PortManager__instance w /\
    heap w1 = heap w /\
    (forall m, init_error env w1 m = init_error env w m).
Proof.
  unfold steps, steps_result, steps_trace, header, ticks, init_error.
  destruct w as [tr ti ta db lv hp pmi mi].
  cbn [Module__instance].
  destruct (String.prefix "win" (sys_platform env));
    destruct (decide (log_effective_level env = DEBUG));
    destruct (db_connect env) eqn:H1;
    destruct (db_computes env) as [cs|] eqn:H2;
    try destruct (controller_start env cs) eqn:H3;
    destruct (mi !! "Qemu") eqn:H4;
    destruct (module_init env "Qemu") eqn:H5;
    run_ops; rewrite ?H1, ?H2; run_ops; rewrite ?H3; run_ops;
    rewrite ?H4; run_ops; rewrite ?H5; run_ops;
    (eexists; split; [reflexivity|]);
    cbn [trace loop_timers loop_tasks PortManager__instance heap Module__instance Datatypes.app];
    rewrite ?app_nil_r; repeat split; try reflexivity.
  all: intros m; destruct (decide (m = "Qemu")) as [->|Hne];
    [rewrite lookup_insert_eq, H4, H5; reflexivity
    |rewrite lookup_insert_ne by congruence; reflexivity].
Qed.

Lemma loaded_all ie ms : loading_result ie ms = Ok tt -> loaded ie ms = ms.
Proof.
  induction ms as [|m rest IH]; cbn; [reflexivity|].
  destruct (ie m); [discriminate|]. intros H. now rewrite IH.
Qed.


(** A run of [start_app]: its outcome, its events and what it leaves in the
    event loop and in the singletons. *)
Lemma start_app_run env app w :
  exists w',
    start_app env app w = (startup_result env (init_error env w), w') /\
    trace w' =
      trace w ++ startup_trace env app (init_error env w) (the_port_manager w) /\
    loop_timers w' = loop_timers w ++ ticks env /\
    loop_tasks w' =
      loop_tasks w ++
      match steps_result env (init_error env w) with
      | Ok _ => [{| task_coro := list_images_of "Qemu"; task_outcome := None |}]
      | Raise _ => []
      end /\
    (startup_result env (init_error env w) = Ok tt ->
     (MODULES env <> [] -> PortManager__instance w' = Some (the_port_manager w)) /\
     (forall m, m ∈ MODULES env ->
        Module__instance w' !! m =
          Some {| port_manager := Some (the_port_manager w) |})).
Proof.
  rewrite start_app_steps. unfold startup_result, startup_trace.
  destruct (steps_run env app w) as (w1 & Hrun & Htr & Hti & Hta & Hpm & Hhp & Hie).
  rewrite Hrun.
  destruct (steps_result env (init_error env w)) as [[]|e] eqn:Hres.
  - destruct (loading_run env (init_error env w) (MODULES env) w1 Hie)
      as (w' & Hrun' & Htr' & Hti' & Hta' & _ & _ & Hpm' & Hin' & _).
    assert (Hsame : the_port_manager w1 = the_port_manager w).
    { unfold the_port_manager. now rewrite Hpm, Hhp. }
    rewrite Hsame in *.
    exists w'. split; [exact Hrun'|].
    split.
    { rewrite Htr', Htr, <- app_assoc. f_equal. symmetry.
      apply steps_trace_returned. exact Hres. }
    split; [congruence|]. split; [congruence|].
    intros Hok. rewrite (loaded_all _ _ Hok) in *. split; assumption.
  - exists w1. split; [reflexivity|].
    split.
    { rewrite Htr. f_equal. symmetry. eapply steps_trace_raised. exact Hres. }
    split; [exact Hti|]. split; [exact Hta|]. discriminate.
Qed.

Lemma lookup_fresh (hp : list PortManager) (x : PortManager) :
  default new_PortManager ((hp ++ [x]) !! length hp) = x.
Proof. induction hp as [|y hp IH]; [reflexivity|exact IH]. Qed.

Lemma report_leaks_run w :
  exists w',
    report_leaks w = (Ok tt, w') /\
    trace w' = trace w ++ leak_report (current_ports w) /\
    current_ports w' = current_ports w /\
    loop_timers w' = loop_timers w /\
    loop_tasks w' = loop_tasks w.
Proof.
  unfold report_leaks, leak_report, current_ports.
  destruct w as [tr ti ta db lv hp pmi mi].
  cbn [PortManager__instance heap].
  destruct pmi as [l|]; run_ops; unfold deref; cbn [heap].
  - destruct (decide (tcp_ports (default new_PortManager (hp !! l)) = ∅));
      run_ops; unfold deref; cbn [heap];
      destruct (decide (udp_ports (default new_PortManager (hp !! l)) = ∅));
      run_ops; unfold deref; cbn [heap];
      (eexists; split; [reflexivity|]);
      cbn [trace loop_timers loop_tasks PortManager__instance heap];
      rewrite ?app_nil_r; repeat split; reflexivity.
  - rewrite !lookup_fresh. cbn [new_PortManager tcp_ports udp_ports].
    destruct (decide ((∅ : gset N) = ∅)) as [_|Hne]; [|destruct Hne; reflexivity].
    run_ops; unfold deref; cbn [heap].
    rewrite !lookup_fresh. cbn [new_PortManager tcp_ports udp_ports].
    destruct (decide ((∅ : gset N) = ∅)) as [_|Hne]; [|destruct Hne; reflexivity].
    run_ops. eexists; split; [reflexivity|].
    cbn [trace loop_timers loop_tasks PortManager__instance heap].
    rewrite ?lookup_fresh, ?app_nil_r; repeat split; reflexivity.
Qed.

Lemma drain_raises env m w e :
  init_error env w m = Some e ->
  drain env m w =
    (Raise e,
     with_trace (trace w ++ [Log DEBUG (Unloading_module m);
                             Begin (c_instance m); Failed (c_instance m) e]) w).
Proof.
  unfold init_error. intros H. destruct w as [tr ti ta db lv hp pmi mi].
  cbn [Module__instance] in H. run.
  destruct (mi !! m); [discriminate|]. rewrite H. run. reflexivity.
Qed.

Lemma drain_runs env m w :
  init_error env w m = None ->
  exists w',
    drain env m w =
      (match module_unload env m with Some e => Raise e | None => Ok tt end, w') /\
    trace w' =
      trace w ++ [Log DEBUG (Unloading_module m); Begin (c_instance m);
                  Done (c_instance m); Begin (c_unload m);
                  match module_unload env m with
                  | Some e => Failed (c_unload m) e
                  | None => Done (c_unload m)
                  end] /\
    loop_timers w' = loop_timers w /\
    loop_tasks w' = loop_tasks w /\
    (forall m', init_error env w' m' = init_error env w m').
Proof.
  unfold init_error. intros H. destruct w as [tr ti ta db lv hp pmi mi].
  cbn [Module__instance] in *. run. unfold release_ports.
  cbn [Module__instance].
  destruct (mi !! m) as [[[l|]]|] eqn:Hm; [| |rewrite H]; run_ops;
    rewrite ?lookup_insert_eq, ?Hm;
    destruct (module_unload env m); run_ops;
    (eexists; split; [reflexivity|]);
    cbn [trace loop_timers loop_tasks Module__instance];
    repeat split; try reflexivity.
  all: intros m'; destruct (decide (m' = m)) as [->|Hne];
    [rewrite lookup_insert_eq, Hm, H; reflexivity
    |rewrite lookup_insert_ne by congruence; reflexivity].
Qed.

Lemma unloading_run env ie ms : forall w,
  (forall m, init_error env w m = ie m) ->
  exists w',
    for_each ms (drain env) w = (unloading_result env ie ms, w') /\
    trace w' = trace w ++ unloading_trace env ie ms /\
    loop_timers w' = loop_timers w /\
    loop_tasks w' = loop_tasks w.
Proof.
  induction ms as [|m rest IH]; intros w Hie.
  - exists w. cbn. rewrite app_nil_r. repeat split; reflexivity.
  - rewrite for_each_cons. cbn [unloading_trace unloading_result].
    specialize (Hie m) as Hm. destruct (ie m) as [e|].
    + rewrite (drain_raises _ _ _ _ Hm). eexists. split; [reflexivity|].
      cbn. repeat split; reflexivity.
    + destruct (drain_runs _ _ _ Hm) as (w1 & Heq & Htr & Hti & Hta & Hie1).
      rewrite Heq. destruct (module_unload env m) as [e|].
      * exists w1. repeat split; assumption.
      * destruct (IH w1) as (w' & Hrun & Htr' & Hti' & Hta').
        { intros m'. rewrite Hie1. apply Hie. }
        exists w'. split; [exact Hrun|].
        split. { rewrite Htr', Htr, <- app_assoc. reflexivity. }
        split; congruence.
Qed.

(** A run of [shutdown_handler]: its outcome and its events. *)
Lemma shutdown_handler_run env app w :
  exists w',
    shutdown_handler env app w = (shutdown_result env (init_error env w), w') /\
    trace w' =
      trace w ++
      shutdown_trace env (init_error env w) (leak_report (current_ports w')) /\
    loop_timers w' = loop_timers w /\
    loop_tasks w' = loop_tasks w.
Proof.
  unfold shutdown_handler, shutdown_result, shutdown_trace.
  change (for_each (MODULES env) _) with (for_each (MODULES env) (drain env)).
  change (pm <- PortManager_instance ;; _) with report_leaks.
  unfold bind at 1 2 3.
  assert (Hc : forall c o w0,
    call c (outcome o) w0 =
      (match o with Some e => Raise e | None => Ok tt end,
       with_trace (trace w0 ++ [Begin c; match o with Some e => Failed c e | None => Done c end]) w0)).
  { intros c [e|] w0; run_ops; reflexivity. }
  unfold HTTPClient_close_session, Controller_stop. rewrite Hc.
  destruct (http_close_session env) as [e|].
  { eexists. split; [reflexivity|]. repeat split; reflexivity. }
  rewrite Hc. destruct (controller_stop env) as [e|].
  { eexists. split; [reflexivity|]. cbn. rewrite <- app_assoc.
    repeat split; reflexivity. }
  match goal with |- context [for_each _ _ ?w0] =>
    destruct (unloading_run env (init_error env w) (MODULES env) w0)
      as (w1 & Hrun & Htr & Hti & Hta); [intros m; reflexivity|] end.
  rewrite Hrun. cbn [with_trace loop_timers loop_tasks trace] in Hti, Hta, Htr.
  destruct (unloading_result env (init_error env w) (MODULES env)) as [[]|e].
  - destruct (report_leaks_run w1) as (w' & Hrun' & Htr' & Hcur & Hti' & Hta').
    exists w'. split; [exact Hrun'|]. rewrite Hcur.
    split. { rewrite Htr', Htr. cbn. rewrite <- !app_assoc. reflexivity. }
    split; congruence.
  - exists w1. split; [reflexivity|].
    split. { rewrite Htr. cbn. rewrite <- !app_assoc, app_nil_r. reflexivity. }
    split; assumption.
Qed.

Lemma run_events_trace {A : Type} (m : M A) (w : World) (d : list Event) :
  trace (m w).2 = trace w ++ d -> run_events m w = d.
Proof. unfold run_events. intros ->. apply drop_app_length. Qed.

Lemma follows_split (p1 : list Event) (a : Event) (p2 tr : list Event)
    (P Q : Event -> Prop) :
  tr = p1 ++ a :: p2 ->
  P a -> ~ Q a -> (forall e, e ∈ p1 -> ~ Q e) ->
  follows tr P Q.
Proof.
  intros -> HP HQ Hp1 j e Hj He.
  destruct (Nat.lt_total j (length p1)) as [Hlt|[->|Hgt]].
  - rewrite lookup_app_l in Hj by exact Hlt.
    exfalso. apply (Hp1 e); [|exact He]. apply list_elem_of_lookup. eauto.
  - rewrite list_lookup_middle in Hj by reflexivity. congruence.
  - exists (length p1), a. split; [exact Hgt|]. split; [|exact HP].
    apply list_lookup_middle. reflexivity.
Qed.

Lemma follows_never (tr : list Event) (P Q : Event -> Prop) :
  (forall e, e ∈ tr -> ~ Q e) -> follows tr P Q.
Proof.
  intros H j e Hj He. exfalso. apply (H e); [|exact He].
  apply list_elem_of_lookup. eauto.
Qed.

Lemma startup_events env app w :
  run_events (start_app env app) w =
    startup_trace env app (init_error env w) (the_port_manager w).
Proof.
  destruct (start_app_run env app w) as (w' & Hrun & Htr & _).
  apply run_events_trace. rewrite Hrun. exact Htr.
Qed.

Lemma startup_outcome env app w :
  (start_app env app w).1 = startup_result env (init_error env w).
Proof.
  destruct (start_app_run env app w) as (w' & Hrun & _). now rewrite Hrun.
Qed.

Lemma shutdown_events env app w :
  run_events (shutdown_handler env app) w =
    shutdown_trace env (init_error env w)
      (leak_report (current_ports (shutdown_handler env app w).2)).
Proof.
  destruct (shutdown_handler_run env app w) as (w' & Hrun & Htr & _).
  apply run_events_trace. rewrite Hrun. exact Htr.
Qed.

Lemma shutdown_outcome env app w :
  (shutdown_handler env app w).1 = shutdown_result env (init_error env w).
Proof.
  destruct (shutdown_handler_run env app w) as (w' & Hrun & _). now rewrite Hrun.
Qed.

Lemma header_events env e :
  e ∈ header env ->
  e = SetLevel ERROR \/ e = CallLater WAKEUP_DELAY wakeup_callback \/
  e = SetDebug true.
Proof.
  unfold header.
  destruct (String.prefix "win" (sys_platform env));
    destruct (decide (log_effective_level env = DEBUG)); cbn;
    rewrite ?elem_of_cons, elem_of_nil; tauto.
Qed.

Lemma loading_trace_events ie pm ms e :
  e ∈ loading_trace ie pm ms -> loading_event e.
Proof.
  induction ms as [|m rest IH]; cbn; [intros H; inversion H|].
  destruct (ie m); rewrite ?elem_of_cons, ?elem_of_nil;
    intros H; repeat (destruct H as [->|H]); cbn; auto; contradiction.
Qed.

Ltac in_header H :=
  apply header_events in H; destruct H as [-> | [-> | ->]].

Ltac in_list H :=
  repeat (apply elem_of_cons in H as [-> | H]);
  try (apply elem_of_nil in H; contradiction).

(** [e] is one of the events of [header env ++ l], [l] given in full. *)
Ltac in_prefix H :=
  apply elem_of_app in H as [H|H]; [in_header H | in_list H].


Lemma call_laters_loading ie pm ms : call_laters (loading_trace ie pm ms) = [].
Proof.
  induction ms as [|m rest IH]; cbn; [reflexivity|].
  destruct (ie m); cbn; [reflexivity|exact IH].
Qed.

Lemma call_laters_startup env app ie pm :
  call_laters (startup_trace env app ie pm) = ticks env.
Proof.
  unfold startup_trace, steps_trace, call_laters, header, ticks.
  rewrite omap_app.
  fold (call_laters (loading_trace ie pm (MODULES env))).
  assert (Hk := call_laters_loading ie pm (MODULES env)).
  set (k := loading_trace _ _ _) in *. clearbody k.
  destruct (String.prefix "win" (sys_platform env));
    destruct (decide (log_effective_level env = DEBUG));
    destruct (db_connect env);
    try destruct (db_computes env) as [cs|];
    try destruct (controller_start env cs);
    try destruct (ie "Qemu"); cbn; fold (call_laters k); rewrite ?Hk; reflexivity.
Qed.

Lemma loading_all ie ms :
  (forall m, m ∈ ms -> ie m = None) ->
  loading_result ie ms = Ok tt /\ loaded ie ms = ms.
Proof.
  induction ms as [|m rest IH]; intros H; cbn; [split; reflexivity|].
  rewrite (H m) by apply list_elem_of_here.
  destruct IH as [-> ->]; [|split; reflexivity].
  intros m' Hin. apply H. now apply list_elem_of_further.
Qed.

Lemma loading_first_failure ie pm ms1 m ms2 e :
  (forall m', m' ∈ ms1 -> ie m' = None) ->
  ie m = Some e ->
  loading_result ie (ms1 ++ m :: ms2) = Raise e /\
  loaded ie (ms1 ++ m :: ms2) = ms1 /\
  last (loading_trace ie pm (ms1 ++ m :: ms2)) = Some (Failed (c_instance m) e).
Proof.
  intros H1 Hm. induction ms1 as [|m1 rest IH]; cbn.
  - rewrite Hm. repeat split; reflexivity.
  - rewrite (H1 m1) by apply list_elem_of_here.
    destruct IH as (-> & -> & Hlast).
    { intros m' Hin. apply H1. now apply list_elem_of_further. }
    repeat split; try reflexivity.
    destruct (loading_trace ie pm (rest ++ m :: ms2)); [discriminate|exact Hlast].
Qed.


Lemma injection_order_loading ie pm ms :
  injection_order (loading_trace ie pm ms) = loaded ie ms.
Proof.
  induction ms as [|m rest IH]; cbn; [reflexivity|].
  destruct (ie m); cbn; [reflexivity|]. f_equal. exact IH.
Qed.

Lemma loading_trace_loaded ie pm ms m :
  m ∈ loaded ie ms ->
  Begin (c_instance m) ∈ loading_trace ie pm ms /\
  Done (c_instance m) ∈ loading_trace ie pm ms /\
  SetPortManager m pm ∈ loading_trace ie pm ms.
Proof.
  induction ms as [|m0 rest IH]; cbn; [intros H; inversion H|].
  destruct (ie m0); [intros H; inversion H|].
  intros [->|Hin]%elem_of_cons.
  - rewrite !elem_of_cons. tauto.
  - destruct (IH Hin) as (? & ? & ?). rewrite !elem_of_cons. tauto.
Qed.

Lemma injection_order_startup env app ie pm :
  injection_order (startup_trace env app ie pm) =
    match steps_result env ie with
    | Ok _ => loaded ie (MODULES env)
    | Raise _ => []
    end.
Proof.
  unfold startup_trace, steps_trace, steps_result, injection_order, header.
  rewrite omap_app.
  fold (injection_order (loading_trace ie pm (MODULES env))).
  rewrite <- (injection_order_loading ie pm (MODULES env)).
  set (k := loading_trace _ _ _) in *. clearbody k.
  destruct (String.prefix "win" (sys_platform env));
    destruct (decide (log_effective_level env = DEBUG));
    destruct (db_connect env);
    try destruct (db_computes env) as [cs|];
    try destruct (controller_start env cs);
    try destruct (ie "Qemu"); reflexivity.
Qed.

Lemma unloading_all env ie ms :
  (forall m, m ∈ ms -> ie m = None /\ module_unload env m = None) ->
  unloading_result env ie ms = Ok tt /\
  unload_order (unloading_trace env ie ms) = ms.
Proof.
  induction ms as [|m rest IH]; intros H; cbn; [split; reflexivity|].
  destruct (H m) as [-> ->]; [apply list_elem_of_here|].
  destruct IH as [-> Hord]; [|split; [reflexivity|cbn; f_equal; exact Hord]].
  intros m' Hin. apply H. now apply list_elem_of_further.
Qed.

Lemma unloading_first_failure env ie ms1 m ms2 e :
  (forall m', m' ∈ ms1 -> ie m' = None /\ module_unload env m' = None) ->
  ie m = None -> module_unload env m = Some e ->
  unloading_result env ie (ms1 ++ m :: ms2) = Raise e /\
  unload_order (unloading_trace env ie (ms1 ++ m :: ms2)) = ms1 ++ [m] /\
  last (unloading_trace env ie (ms1 ++ m :: ms2)) = Some (Failed (c_unload m) e).
Proof.
  intros H1 Hm He. induction ms1 as [|m1 rest IH]; cbn.
  - rewrite Hm, He. repeat split; reflexivity.
  - destruct (H1 m1) as [-> ->]; [apply list_elem_of_here|].
    destruct IH as (-> & Hord & Hlast).
    { intros m' Hin. apply H1. now apply list_elem_of_further. }
    split; [reflexivity|]. split; [cbn; f_equal; exact Hord|].
    destruct (unloading_trace env ie (rest ++ m :: ms2)); [discriminate|exact Hlast].
Qed.

Lemma unloading_raised env ie ms e :
  unloading_result env ie ms = Raise e ->
  exists m, m ∈ ms /\ (ie m = Some e \/ module_unload env m = Some e).
Proof.
  induction ms as [|m rest IH]; cbn; [discriminate|].
  destruct (ie m) as [e'|] eqn:Hm.
  { intros [= ->]. exists m. split; [apply list_elem_of_here|now left]. }
  destruct (module_unload env m) as [e'|] eqn:Hu.
  { intros [= ->]. exists m. split; [apply list_elem_of_here|now right]. }
  intros H. destruct (IH H) as (m' & Hin & Hm').
  exists m'. split; [now apply list_elem_of_further|exact Hm'].
Qed.

Lemma unloading_trace_events env ie ms e :
  e ∈ unloading_trace env ie ms -> unloading_event e.
Proof.
  induction ms as [|m rest IH]; cbn; [intros H; inversion H|].
  destruct (ie m); [|destruct (module_unload env m)];
    rewrite ?elem_of_cons, ?elem_of_nil;
    intros H; repeat (destruct H as [->|H]); cbn; auto; contradiction.
Qed.

Lemma unload_order_leak_report pm : unload_order (leak_report pm) = [].
Proof.
  unfold leak_report.
  destruct (decide (tcp_ports pm = ∅)); destruct (decide (udp_ports pm = ∅));
    reflexivity.
Qed.

Lemma unloaded_all env ie ms :
  unloading_result env ie ms = Ok tt ->
  unload_order (unloading_trace env ie ms) = ms.
Proof.
  induction ms as [|m rest IH]; cbn; [reflexivity|].
  destruct (ie m); [discriminate|].
  destruct (module_unload env m); [discriminate|].
  intros H. cbn. f_equal. exact (IH H).
Qed.

Lemma startup_returned env ie :
  startup_result env ie = Ok tt ->
  steps_result env ie = Ok tt /\ loading_result ie (MODULES env) = Ok tt.
Proof.
  unfold startup_result. destruct (steps_result env ie) as [[]|]; [|discriminate].
  intros H. split; [reflexivity|exact H].
Qed.

Lemma elem_of_leak_report pm e :
  e ∈ leak_report pm -> exists msg, e = Log WARNING msg.
Proof.
  unfold leak_report.
  destruct (decide (tcp_ports pm = ∅)); destruct (decide (udp_ports pm = ∅));
    cbn; intros H; in_list H; eauto.
Qed.

Example linux_startup :
  run_events (start_app linux_host the_app) empty_world =
    [SetLevel ERROR;
     Begin (c_connect_to_db the_app); Done (c_connect_to_db the_app);
     Begin (c_get_computes the_app); Done (c_get_computes the_app);
     Begin (c_Controller_start
              [{| compute_id := "local"; compute_host := "127.0.0.1";
                  compute_port := 3080%N |}]);
     Done (c_Controller_start
             [{| compute_id := "local"; compute_host := "127.0.0.1";
                 compute_port := 3080%N |}]);
     Begin (c_instance "Qemu"); Done (c_instance "Qemu");
     EnsureFuture (list_images_of "Qemu");
     Log DEBUG (Loading_module "VPCS");
     Begin (c_instance "VPCS"); Done (c_instance "VPCS");
     SetPortManager "VPCS" 0;
     Log DEBUG (Loading_module "Dynamips");
     Begin (c_instance "Dynamips"); Done (c_instance "Dynamips");
     SetPortManager "Dynamips" 0;
     Log DEBUG (Loading_module "Qemu");
     Begin (c_instance "Qemu"); Done (c_instance "Qemu");
     SetPortManager "Qemu" 0].
Proof. vm_compute. reflexivity. Qed.

Example leaking_shutdown :
  run_events (shutdown_handler linux_host the_app) leaking_world =
    [Begin c_HTTPClient_close_session; Done c_HTTPClient_close_session;
     Begin c_Controller_stop; Done c_Controller_stop;
     Log DEBUG (Unloading_module "VPCS");
     Begin (c_instance "VPCS"); Done (c_instance "VPCS");
     Begin (c_unload "VPCS"); Done (c_unload "VPCS");
     Log DEBUG (Unloading_module "Dynamips");
     Begin (c_instance "Dynamips"); Done (c_instance "Dynamips");
     Begin (c_unload "Dynamips"); Done (c_unload "Dynamips");
     Log DEBUG (Unloading_module "Qemu");
     Begin (c_instance "Qemu"); Done (c_instance "Qemu");
     Begin (c_unload "Qemu"); Done (c_unload "Qemu");
     Log WARNING (TCP_ports_are_still_used {[ 5000%N ]});
     Log WARNING (UDP_ports_are_still_used {[ 10000%N ]})].
Proof. vm_compute. reflexivity. Qed.

Lemma no_start_hook env app w m :
  Begin (c_start m) ∉ run_events (start_app env app) w.
Proof.
  rewrite startup_events. unfold startup_trace, steps_trace. intros Hin.
  apply elem_of_app in Hin as [Hin|Hin];
    [apply header_events in Hin; destruct Hin as [?|[?|?]]; discriminate|].
  destruct (db_connect env) as [e1|];
    [|destruct (db_computes env) as [cs0|e2];
      [destruct (controller_start env cs0) as [e3|];
       [|destruct (init_error env w "Qemu") as [e4|]]|]];
    repeat (apply elem_of_cons in Hin as [Hin|Hin]; [congruence|]);
    try (apply elem_of_nil in Hin; contradiction).
  apply loading_trace_events in Hin. contradiction.
Qed.

Lemma loaded_prefix ie ms : loaded ie ms `prefix_of` ms.
Proof.
  induction ms as [|m rest IH]; cbn; [apply prefix_nil|].
  destruct (ie m); [apply prefix_nil|apply prefix_cons, IH].
Qed.

Lemma unload_order_prefix env ie ms :
  unload_order (unloading_trace env ie ms) `prefix_of` ms.
Proof.
  induction ms as [|m rest IH]; cbn; [apply prefix_nil|].
  destruct (ie m); [apply prefix_nil|].
  destruct (module_unload env m); cbn;
    [apply prefix_cons, prefix_nil|apply prefix_cons, IH].
Qed.

Lemma unload_order_shutdown env ie pm :
  unload_order (shutdown_trace env ie (leak_report pm)) =
    match http_close_session env, controller_stop env with
    | None, None => unload_order (unloading_trace env ie (MODULES env))
    | _, _ => []
    end.
Proof.
  unfold shutdown_trace.
  destruct (http_close_session env); [reflexivity|].
  destruct (controller_stop env); [reflexivity|]. cbn.
  unfold unload_order at 1. rewrite omap_app.
  fold (unload_order (unloading_trace env ie (MODULES env))).
  destruct (unloading_result env ie (MODULES env)); cbn;
    [|apply app_nil_r].
  fold (unload_order (leak_report pm)).
  rewrite unload_order_leak_report. apply app_nil_r.
Qed.

Example releasing_shutdown :
  run_events (shutdown_handler releasing_host the_app) world_in_use =
    [Begin c_HTTPClient_close_session; Done c_HTTPClient_close_session;
     Begin c_Controller_stop; Done c_Controller_stop;
     Log DEBUG (Unloading_module "VPCS");
     Begin (c_instance "VPCS"); Done (c_instance "VPCS");
     Begin (c_unload "VPCS"); Done (c_unload "VPCS");
     Log DEBUG (Unloading_module "Dynamips");
     Begin (c_instance "Dynamips"); Done (c_instance "Dynamips");
     Begin (c_unload "Dynamips"); Done (c_unload "Dynamips");
     Log DEBUG (Unloading_module "Qemu");
     Begin (c_instance "Qemu"); Done (c_instance "Qemu");
     Begin (c_unload "Qemu"); Done (c_unload "Qemu")].
Proof. vm_compute. reflexivity. Qed.

Lemma shutdown_handler_drains env app w :
  shutdown_handler env app w =
    match drains env w with
    | (Ok _, w1) => report_leaks w1
    | (Raise e, w1) => (Raise e, w1)
    end.
Proof.
  unfold shutdown_handler, drains.
  change (for_each (MODULES env) _) with (for_each (MODULES env) (drain env)).
  change (pm <- PortManager_instance ;; _) with report_leaks.
  unfold bind.
  destruct (HTTPClient_close_session env w) as [[[]|e1] w1]; [|reflexivity].
  destruct (Controller_stop env w1) as [[[]|e2] w2]; [|reflexivity].
  destruct (for_each (MODULES env) (drain env) w2) as [[[]|e3] w3]; reflexivity.
Qed.

Lemma report_leaks_frame w :
  (report_leaks w).1 = Ok tt /\
  asyncio_level (report_leaks w).2 = asyncio_level w /\
  loop_debug (report_leaks w).2 = loop_debug w /\
  loop_timers (report_leaks w).2 = loop_timers w /\
  loop_tasks (report_leaks w).2 = loop_tasks w /\
  Module__instance (report_leaks w).2 = Module__instance w /\
  PortManager__instance (report_leaks w).2 = Some (the_port_manager w) /\
  heap (report_leaks w).2 =
    heap w ++
    match PortManager__instance w with
    | Some _ => []
    | None => [new_PortManager]
    end.
Proof.
  unfold report_leaks, the_port_manager.
  destruct w as [tr ti ta db lv hp pmi mi].
  cbn [PortManager__instance heap].
  destruct pmi as [l|]; run_ops; unfold deref; cbn [heap].
  - destruct (decide (tcp_ports (default new_PortManager (hp !! l)) = ∅));
      run_ops; unfold deref; cbn [heap];
      destruct (decide (udp_ports (default new_PortManager (hp !! l)) = ∅));
      run_ops; unfold deref; cbn [heap]; cbn; rewrite app_nil_r;
      repeat split; reflexivity.
  - rewrite !lookup_fresh. cbn [new_PortManager tcp_ports udp_ports].
    destruct (decide ((∅ : gset N) = ∅)) as [_|Hne]; [|destruct Hne; reflexivity].
    run_ops; unfold deref; cbn [heap].
    rewrite !lookup_fresh. cbn [new_PortManager tcp_ports udp_ports].
    destruct (decide ((∅ : gset N) = ∅)) as [_|Hne]; [|destruct Hne; reflexivity].
    run_ops. cbn. repeat split; reflexivity.
Qed.

Lemma loading_trace_all ie pm ms :
  (forall m, m ∈ ms -> ie m = None) ->
  loading_trace ie pm ms =
    flat_map (fun m => [Log DEBUG (Loading_module m); Begin (c_instance m);
                        Done (c_instance m); SetPortManager m pm]) ms.
Proof.
  induction ms as [|m rest IH]; intros H; cbn; [reflexivity|].
  rewrite (H m) by apply list_elem_of_here. do 4 f_equal.
  apply IH. intros m' Hin. apply H. now apply list_elem_of_further.
Qed.

Lemma unloading_trace_all env ie ms :
  (forall m, m ∈ ms -> ie m = None /\ module_unload env m = None) ->
  unloading_trace env ie ms =
    flat_map (fun m => [Log DEBUG (Unloading_module m); Begin (c_instance m);
                        Done (c_instance m); Begin (c_unload m);
                        Done (c_unload m)]) ms.
Proof.
  induction ms as [|m rest IH]; intros H; cbn; [reflexivity|].
  destruct (H m) as [-> ->]; [apply list_elem_of_here|]. do 5 f_equal.
  apply IH. intros m' Hin. apply H. now apply list_elem_of_further.
Qed.

Lemma unloading_returned env ie ms :
  unloading_result env ie ms = Ok tt ->
  forall m, m ∈ ms -> ie m = None /\ module_unload env m = None.
Proof.
  induction ms as [|m rest IH]; cbn; intros H m' Hin; [inversion Hin|].
  destruct (ie m) eqn:Hm; [discriminate|].
  destruct (module_unload env m) eqn:Hu; [discriminate|].
  apply elem_of_cons in Hin as [E|Hin]; [rewrite E; split; assumption|].
  exact (IH H m' Hin).
Qed.

Lemma loading_trace_first_failure ie pm ms1 m ms2 e :
  (forall m', m' ∈ ms1 -> ie m' = None) ->
  ie m = Some e ->
  loading_trace ie pm (ms1 ++ m :: ms2) =
    flat_map (fun m => [Log DEBUG (Loading_module m); Begin (c_instance m);
                        Done (c_instance m); SetPortManager m pm]) ms1 ++
    [Log DEBUG (Loading_module m); Begin (c_instance m); Failed (c_instance m) e].
Proof.
  intros H1 Hm. induction ms1 as [|m1 rest IH]; cbn.
  - rewrite Hm. reflexivity.
  - rewrite (H1 m1) by apply list_elem_of_here. do 4 f_equal.
    apply IH. intros m' Hin. apply H1. now apply list_elem_of_further.
Qed.

Lemma shutdown_returned_singleton env app w :
  (shutdown_handler env app w).1 = Ok tt ->
  is_Some (PortManager__instance (shutdown_handler env app w).2).
Proof.
  rewrite shutdown_handler_drains.
  destruct (drains env w) as [[[]|e] w1]; cbn [fst snd]; [|discriminate].
  intros _. destruct (report_leaks_frame w1) as (_ & _ & _ & _ & _ & _ & Hpm & _).
  rewrite Hpm. eauto.
Qed.

(** * The claims *)

(** C1 -- the order of the startup steps.  In every run of [start_app]: no
    other call starts before [connect_to_db] has returned; [Controller.start]
    starts only after [get_computes] has returned, and with the computes it
    returned; a module singleton is obtained, or given the port manager,
    only after [Controller.start] has returned on those computes.  When
    these three steps return, their completions are in the run. *)
Theorem C1_startup_order env app w :
  (forall c, c <> c_connect_to_db app ->
     follows (run_events (start_app env app) w)
       (eq (Done (c_connect_to_db app))) (eq (Begin c))) /\
  (forall cs,
     follows (run_events (start_app env app) w)
       (eq (Done (c_get_computes app))) (eq (Begin (c_Controller_start cs)))) /\
  (forall cs,
     Begin (c_Controller_start cs) ∈ run_events (start_app env app) w ->
     db_computes env = Ok cs) /\
  follows (run_events (start_app env app) w)
    (fun a => exists cs,
       a = Done (c_Controller_start cs) /\ db_computes env = Ok cs)
    touches_module /\
  (db_connect env = None ->
   forall cs, db_computes env = Ok cs -> controller_start env cs = None ->
     Done (c_connect_to_db app) ∈ run_events (start_app env app) w /\
     Done (c_get_computes app) ∈ run_events (start_app env app) w /\
     Done (c_Controller_start cs) ∈ run_events (start_app env app) w).
Proof.
  rewrite startup_events. unfold startup_trace, steps_trace.
  set (k := loading_trace _ _ _).
  assert (Hk : forall e, e ∈ k -> loading_event e)
    by (intros e; apply loading_trace_events).
  clearbody k.
  set (ie := init_error env w "Qemu"). clearbody ie.
  split; [|split; [|split; [|split]]].
  - intros c Hc. destruct (db_connect env) as [e1|].
    + apply follows_never. intros e He. in_prefix He; congruence.
    + eapply (follows_split (header env ++ [Begin (c_connect_to_db app)])
               (Done (c_connect_to_db app))).
      * rewrite <- app_assoc. reflexivity.
      * reflexivity.
      * congruence.
      * intros e He. in_prefix He; congruence.
  - intros cs. destruct (db_connect env) as [e1|].
    { apply follows_never. intros e He. in_prefix He; congruence. }
    destruct (db_computes env) as [cs0|e2].
    + eapply (follows_split
               (header env ++ [Begin (c_connect_to_db app);
                               Done (c_connect_to_db app);
                               Begin (c_get_computes app)])
               (Done (c_get_computes app))).
      * rewrite <- app_assoc. reflexivity.
      * reflexivity.
      * congruence.
      * intros e He. in_prefix He; congruence.
    + apply follows_never. intros e He. in_prefix He; congruence.
  - intros cs Hin.
    apply elem_of_app in Hin as [Hin|Hin];
      [apply header_events in Hin; destruct Hin as [?|[?|?]]; discriminate|].
    destruct (db_connect env) as [e1|];
      [|destruct (db_computes env) as [cs0|e2];
        [destruct (controller_start env cs0) as [e3|];
         [|destruct ie as [e4|]]|]];
      repeat (apply elem_of_cons in Hin as [Hin|Hin]; [congruence|]);
      try (apply elem_of_nil in Hin; contradiction).
    apply Hk in Hin. contradiction.
  - destruct (db_connect env) as [e1|].
    { apply follows_never. intros e He. in_prefix He; cbn; tauto. }
    destruct (db_computes env) as [cs|e2].
    2: { apply follows_never. intros e He. in_prefix He; cbn; tauto. }
    destruct (controller_start env cs) as [e3|].
    { apply follows_never. intros e He. in_prefix He; cbn; tauto. }
    eapply (follows_split
             (header env ++ [Begin (c_connect_to_db app);
                             Done (c_connect_to_db app);
                             Begin (c_get_computes app);
                             Done (c_get_computes app);
                             Begin (c_Controller_start cs)])
             (Done (c_Controller_start cs))).
    + rewrite <- app_assoc. reflexivity.
    + exists cs. split; reflexivity.
    + cbn. tauto.
    + intros e He. in_prefix He; cbn; tauto.
  - intros -> cs -> ->.
    repeat split; apply elem_of_app; right; rewrite !elem_of_cons; tauto.
Qed.

(** C1 on a host where every step returns: the three completions are in
    the run. *)
Lemma C1_witness :
  Done (c_connect_to_db the_app) ∈
    run_events (start_app linux_host the_app) empty_world /\
  Done (c_get_computes the_app) ∈
    run_events (start_app linux_host the_app) empty_world /\
  Done (c_Controller_start
          [{| compute_id := "local"; compute_host := "127.0.0.1";
              compute_port := 3080%N |}]) ∈
    run_events (start_app linux_host the_app) empty_world.
Proof.
  exact (proj2 (proj2 (proj2 (proj2
           (C1_startup_order linux_host the_app empty_world))))
           eq_refl _ eq_refl eq_refl).
Defined.

(** C2, as stated, fails: when [HTTPClient.close_session] raises, the run is
    over after that call; [Controller.stop] is never called and no module
    is unloaded, although ports are still held. *)
Lemma C2_counterexample :
  ~ shutdown_steps_independent closing_fails the_app leaking_world.
Proof.
  intros [Hstop _]. revert Hstop.
  replace (run_events (shutdown_handler closing_fails the_app) leaking_world)
    with [Begin c_HTTPClient_close_session;
          Failed c_HTTPClient_close_session "ClientError"]
    by (vm_compute; reflexivity).
  intros H. repeat (apply elem_of_cons in H as [H|H]; [discriminate|]).
  apply elem_of_nil in H. exact H.
Qed.

(** C2, amended -- [shutdown_handler] runs its steps in order and stops at
    the first that raises, whose exception it propagates: after a failure
    of [close_session] nothing else runs; after a failure of
    [Controller.stop] no module is unloaded; after a failure of the unload
    hook of a module, the modules before it in [MODULES] and that one are
    the only ones whose hook was invoked, the failure is the last event and
    no warning about ports is given.  When no step raises, every module of
    [MODULES] is unloaded, in that order, and the run ends with the report
    on the ports still in use. *)
Theorem C2_shutdown_stops_at_first_failure env app w :
  (forall e, http_close_session env = Some e ->
     (shutdown_handler env app w).1 = Raise e /\
     run_events (shutdown_handler env app) w =
       [Begin c_HTTPClient_close_session; Failed c_HTTPClient_close_session e]) /\
  (http_close_session env = None ->
   forall e, controller_stop env = Some e ->
     (shutdown_handler env app w).1 = Raise e /\
     run_events (shutdown_handler env app) w =
       [Begin c_HTTPClient_close_session; Done c_HTTPClient_close_session;
        Begin c_Controller_stop; Failed c_Controller_stop e]) /\
  (http_close_session env = None -> controller_stop env = None ->
   forall ms1 m ms2 e,
     MODULES env = ms1 ++ m :: ms2 ->
     (forall m', m' ∈ ms1 ->
        init_error env w m' = None /\ module_unload env m' = None) ->
     init_error env w m = None -> module_unload env m = Some e ->
     (shutdown_handler env app w).1 = Raise e /\
     unload_order (run_events (shutdown_handler env app) w) = ms1 ++ [m] /\
     last (run_events (shutdown_handler env app) w) = Some (Failed (c_unload m) e) /\
     (forall msg, Log WARNING msg ∉ run_events (shutdown_handler env app) w)) /\
  (http_close_session env = None -> controller_stop env = None ->
   (forall m, m ∈ MODULES env ->
      init_error env w m = None /\ module_unload env m = None) ->
   (shutdown_handler env app w).1 = Ok tt /\
   unload_order (run_events (shutdown_handler env app) w) = MODULES env /\
   exists pre,
     run_events (shutdown_handler env app) w =
       pre ++ leak_report (current_ports (shutdown_handler env app w).2)).
Proof.
  rewrite shutdown_events, shutdown_outcome.
  unfold shutdown_result, shutdown_trace.
  set (k := leak_report _).
  split; [|split; [|split]].
  - intros e ->. split; reflexivity.
  - intros -> e ->. split; reflexivity.
  - intros -> -> ms1 m ms2 e Hms Hms1 Hm Hu. rewrite Hms.
    destruct (unloading_first_failure env (init_error env w) ms1 m ms2 e Hms1 Hm Hu)
      as (Hres & Hord & Hlast).
    rewrite Hres, app_nil_r. split; [reflexivity|].
    split; [exact Hord|]. split.
    + change (last ([Begin c_HTTPClient_close_session; Done c_HTTPClient_close_session;
                     Begin c_Controller_stop; Done c_Controller_stop] ++
                    unloading_trace env (init_error env w) (ms1 ++ m :: ms2)) =
              Some (Failed (c_unload m) e)).
      rewrite last_app, Hlast. reflexivity.
    + intros msg Hin.
      repeat (apply elem_of_cons in Hin as [Hin|Hin]; [discriminate|]).
      apply unloading_trace_events in Hin. contradiction.
  - intros -> -> Hall.
    destruct (unloading_all env (init_error env w) (MODULES env) Hall) as [Hres Hord].
    rewrite Hres. split; [reflexivity|]. split.
    + cbn. unfold unload_order in *. rewrite omap_app, Hord.
      fold (unload_order k). unfold k. rewrite unload_order_leak_report.
      apply app_nil_r.
    + exists ([Begin c_HTTPClient_close_session; Done c_HTTPClient_close_session;
               Begin c_Controller_stop; Done c_Controller_stop] ++
              unloading_trace env (init_error env w) (MODULES env)).
      rewrite <- app_assoc. reflexivity.
Qed.

(** The amended C2 on a host where the unload hook of the second of three
    modules raises. *)
Lemma C2_witness :
  (shutdown_handler unload_fails the_app leaking_world).1 = Raise "DynamipsError" /\
  unload_order (run_events (shutdown_handler unload_fails the_app) leaking_world) =
    ["VPCS"; "Dynamips"] /\
  last (run_events (shutdown_handler unload_fails the_app) leaking_world) =
    Some (Failed (c_unload "Dynamips") "DynamipsError") /\
  (forall msg, Log WARNING msg ∉
     run_events (shutdown_handler unload_fails the_app) leaking_world).
Proof.
  apply (proj1 (proj2 (proj2
           (C2_shutdown_stops_at_first_failure unload_fails the_app leaking_world)))
           eq_refl eq_refl ["VPCS"] "Dynamips" ["Qemu"] "DynamipsError" eq_refl).
  - intros m' Hin. apply list_elem_of_singleton in Hin as ->. split; reflexivity.
  - reflexivity.
  - reflexivity.
Defined.

(** C3, as stated, fails: with three modules the unload hooks are invoked in
    the order in which the modules were given the port manager, which is
    not its reverse. *)
Lemma C3_counterexample :
  ~ drained_in_reverse linux_host the_app empty_world
      (start_app linux_host the_app empty_world).2.
Proof.
  unfold drained_in_reverse.
  replace (unload_order _) with ["VPCS"; "Dynamips"; "Qemu"]
    by (vm_compute; reflexivity).
  replace (injection_order _) with ["VPCS"; "Dynamips"; "Qemu"]
    by (vm_compute; reflexivity).
  discriminate.
Qed.

(** C3, amended -- in every run the modules given the port manager by
    [start_app] are a front part of [MODULES], in its order, and so are the
    modules whose unload hook [shutdown_handler] invokes; when both
    handlers return, both are the whole of [MODULES]: the modules are
    unloaded in the order in which they were loaded, not in the reverse. *)
Theorem C3_drained_in_loading_order env app w1 w2 :
  injection_order (run_events (start_app env app) w1) `prefix_of` MODULES env /\
  unload_order (run_events (shutdown_handler env app) w2) `prefix_of` MODULES env /\
  ((start_app env app w1).1 = Ok tt ->
   (shutdown_handler env app w2).1 = Ok tt ->
   injection_order (run_events (start_app env app) w1) = MODULES env /\
   unload_order (run_events (shutdown_handler env app) w2) = MODULES env /\
   unload_order (run_events (shutdown_handler env app) w2) =
     injection_order (run_events (start_app env app) w1)).
Proof.
  rewrite startup_outcome, shutdown_outcome, startup_events, shutdown_events.
  rewrite injection_order_startup, unload_order_shutdown.
  split; [|split].
  - destruct (steps_result env (init_error env w1));
      [apply loaded_prefix|apply prefix_nil].
  - destruct (http_close_session env); [apply prefix_nil|].
    destruct (controller_stop env); [apply prefix_nil|].
    apply unload_order_prefix.
  - intros Hup Hdown.
    destruct (startup_returned _ _ Hup) as [-> Hload].
    rewrite (loaded_all _ _ Hload).
    revert Hdown. unfold shutdown_result.
    destruct (http_close_session env); [discriminate|].
    destruct (controller_stop env); [discriminate|].
    intros Hdown. rewrite (unloaded_all _ _ _ Hdown).
    repeat split; reflexivity.
Qed.

(** The amended C3 on a startup followed by a shutdown in the world the
    startup left. *)
Lemma C3_witness :
  injection_order (run_events (start_app linux_host the_app) empty_world) =
    ["VPCS"; "Dynamips"; "Qemu"] /\
  unload_order
    (run_events (shutdown_handler linux_host the_app)
       (start_app linux_host the_app empty_world).2) =
    ["VPCS"; "Dynamips"; "Qemu"] /\
  unload_order
    (run_events (shutdown_handler linux_host the_app)
       (start_app linux_host the_app empty_world).2) =
    injection_order (run_events (start_app linux_host the_app) empty_world).
Proof.
  apply (proj2 (proj2
           (C3_drained_in_loading_order linux_host the_app empty_world
              (start_app linux_host the_app empty_world).2))).
  - vm_compute. reflexivity.
  - vm_compute. reflexivity.
Defined.

(** C4, as stated, fails: in a startup that returns, the start hook of no
    module is invoked. *)
Lemma C4_counterexample :
  (start_app linux_host the_app empty_world).1 = Ok tt /\
  ~ start_hooks_invoked linux_host the_app empty_world.
Proof.
  split; [vm_compute; reflexivity|].
  intros H. apply (no_start_hook linux_host the_app empty_world "VPCS").
  apply H. apply list_elem_of_here.
Qed.

(** C4, amended -- when [start_app] returns, there is one port manager [pm],
    the singleton of [PortManager], such that for every module of [MODULES]
    the singleton of the module was obtained and its [port_manager]
    attribute is [pm]; the start hook of no module is invoked. *)
Theorem C4_modules_share_the_port_manager env app w :
  (start_app env app w).1 = Ok tt ->
  exists pm,
    (MODULES env <> [] ->
     PortManager__instance (start_app env app w).2 = Some pm) /\
    (forall m, m ∈ MODULES env ->
       Done (c_instance m) ∈ run_events (start_app env app) w /\
       SetPortManager m pm ∈ run_events (start_app env app) w /\
       Module__instance (start_app env app w).2 !! m =
         Some {| port_manager := Some pm |}) /\
    (forall m, Begin (c_start m) ∉ run_events (start_app env app) w).
Proof.
  intros Hok. exists (the_port_manager w).
  split; [|split; [|intros m; apply no_start_hook]].
  - destruct (start_app_run env app w) as (w' & Hrun & _ & _ & _ & Hmods).
    rewrite Hrun in *. cbn [fst snd] in *. apply Hmods. exact Hok.
  - intros m Hin. rewrite startup_events.
    destruct (start_app_run env app w) as (w' & Hrun & _ & _ & _ & Hmods).
    rewrite Hrun in *. cbn [fst snd] in *.
    destruct (startup_returned _ _ Hok) as [Hsteps Hload].
    unfold startup_trace. rewrite (steps_trace_returned _ _ _ _ Hsteps).
    destruct (loading_trace_loaded (init_error env w) (the_port_manager w)
                (MODULES env) m) as (_ & Hdone & Hset).
    { rewrite (loaded_all _ _ Hload). exact Hin. }
    split; [apply elem_of_app; right; exact Hdone|].
    split; [apply elem_of_app; right; exact Hset|].
    apply Hmods; assumption.
Qed.

(** The amended C4 on a host with three modules, from the empty world. *)
Lemma C4_witness :
  exists pm,
    (MODULES linux_host <> [] ->
     PortManager__instance (start_app linux_host the_app empty_world).2 = Some pm) /\
    (forall m, m ∈ MODULES linux_host ->
       Done (c_instance m) ∈ run_events (start_app linux_host the_app) empty_world /\
       SetPortManager m pm ∈ run_events (start_app linux_host the_app) empty_world /\
       Module__instance (start_app linux_host the_app empty_world).2 !! m =
         Some {| port_manager := Some pm |}) /\
    (forall m, Begin (c_start m) ∉
       run_events (start_app linux_host the_app) empty_world).
Proof.
  apply (C4_modules_share_the_port_manager linux_host the_app empty_world).
  vm_compute. reflexivity.
Defined.

(** C5, as stated, fails: when the singleton of the second module cannot be
    created, [start_app] raises that exception; the third module, which
    could be obtained, is not given the port manager. *)
Lemma C5_counterexample :
  (start_app dynamips_missing the_app empty_world).1 = Raise "DynamipsError" /\
  init_error dynamips_missing empty_world "Qemu" = None /\
  injection_order (run_events (start_app dynamips_missing the_app) empty_world) =
    ["VPCS"] /\
  ~ loading_isolated dynamips_missing the_app empty_world.
Proof.
  repeat split; try (vm_compute; reflexivity).
  intros [Hok _]. revert Hok. vm_compute. discriminate.
Qed.

(** C5, amended -- when the steps before the module loop have returned and
    obtaining the singleton of a module [m] of [MODULES] raises [e], while
    the modules before it can be obtained, then [start_app] raises [e]:
    the modules before [m] are the only ones given the port manager, the
    failure is the last event of the run and the handler logs nothing but
    its debug messages. *)
Theorem C5_loading_stops_at_first_failure env app w cs ms1 m ms2 e :
  db_connect env = None ->
  db_computes env = Ok cs ->
  controller_start env cs = None ->
  init_error env w "Qemu" = None ->
  MODULES env = ms1 ++ m :: ms2 ->
  (forall m', m' ∈ ms1 -> init_error env w m' = None) ->
  init_error env w m = Some e ->
  (start_app env app w).1 = Raise e /\
  injection_order (run_events (start_app env app) w) = ms1 /\
  last (run_events (start_app env app) w) = Some (Failed (c_instance m) e) /\
  (forall lvl msg,
     Log lvl msg ∈ run_events (start_app env app) w -> lvl = DEBUG).
Proof.
  intros Hdb Hcs Hstart Hq Hms Hms1 Hm.
  rewrite startup_outcome, startup_events.
  destruct (loading_first_failure (init_error env w) (the_port_manager w)
              ms1 m ms2 e Hms1 Hm) as (Hres & Hloaded & Hlast).
  assert (Hsteps : steps_result env (init_error env w) = Ok tt).
  { unfold steps_result. now rewrite Hdb, Hcs, Hstart, Hq. }
  split; [|split; [|split]].
  - unfold startup_result. now rewrite Hsteps, Hms.
  - rewrite injection_order_startup, Hsteps, Hms. exact Hloaded.
  - unfold startup_trace. rewrite (steps_trace_returned _ _ _ _ Hsteps), Hms.
    rewrite last_app, Hlast. reflexivity.
  - intros lvl msg Hin. unfold startup_trace, steps_trace in Hin.
    rewrite Hdb, Hcs, Hstart, Hq in Hin.
    apply elem_of_app in Hin as [Hin|Hin];
      [apply header_events in Hin; destruct Hin as [?|[?|?]]; discriminate|].
    repeat (apply elem_of_cons in Hin as [Hin|Hin]; [discriminate|]).
    apply loading_trace_events in Hin. cbn in Hin.
    destruct lvl; try contradiction. reflexivity.
Qed.

(** The amended C5 on a host where the second of three modules cannot be
    created. *)
Lemma C5_witness :
  (start_app dynamips_missing the_app empty_world).1 = Raise "DynamipsError" /\
  injection_order (run_events (start_app dynamips_missing the_app) empty_world) =
    ["VPCS"] /\
  last (run_events (start_app dynamips_missing the_app) empty_world) =
    Some (Failed (c_instance "Dynamips") "DynamipsError") /\
  (forall lvl msg,
     Log lvl msg ∈ run_events (start_app dynamips_missing the_app) empty_world ->
     lvl = DEBUG).
Proof.
  apply (C5_loading_stops_at_first_failure dynamips_missing the_app empty_world
           [] ["VPCS"] "Dynamips" ["Qemu"] "DynamipsError");
    try reflexivity.
  intros m' Hin. apply list_elem_of_singleton in Hin as ->. reflexivity.
Defined.

(** C6, as stated, fails: the report is not the end of every run.  When the
    unload hook of a module raises, [shutdown_handler] raises and never
    gets to lines 97-101: TCP port 5000 and UDP port 10000 are still in use
    and no warning is given. *)
Lemma C6_counterexample :
  (shutdown_handler unload_fails the_app leaking_world).1 = Raise "DynamipsError" /\
  tcp_ports (current_ports (shutdown_handler unload_fails the_app leaking_world).2) =
    {[ 5000%N ]} /\
  udp_ports (current_ports (shutdown_handler unload_fails the_app leaking_world).2) =
    {[ 10000%N ]} /\
  ~ leaks_always_reported unload_fails the_app leaking_world.
Proof.
  split; [vm_compute; reflexivity|].
  split; [vm_compute; reflexivity|].
  split; [vm_compute; reflexivity|].
  intros H. destruct (H _ eq_refl) as [Htcp _].
  assert (Hne : tcp_ports
                  (current_ports
                     (shutdown_handler unload_fails the_app leaking_world).2) <> ∅).
  { replace (tcp_ports _) with ({[ 5000%N ]} : gset N) by (vm_compute; reflexivity).
    intros E. apply (non_empty_singleton_L (5000%N : N)) in E. exact E. }
  specialize (Htcp Hne). revert Htcp.
  replace (run_events (shutdown_handler unload_fails the_app) leaking_world)
    with [Begin c_HTTPClient_close_session; Done c_HTTPClient_close_session;
          Begin c_Controller_stop; Done c_Controller_stop;
          Log DEBUG (Unloading_module "VPCS");
          Begin (c_instance "VPCS"); Done (c_instance "VPCS");
          Begin (c_unload "VPCS"); Done (c_unload "VPCS");
          Log DEBUG (Unloading_module "Dynamips");
          Begin (c_instance "Dynamips"); Done (c_instance "Dynamips");
          Begin (c_unload "Dynamips");
          Failed (c_unload "Dynamips") "DynamipsError"]
    by (vm_compute; reflexivity).
  intros Hin.
  repeat (apply elem_of_cons in Hin as [Hin|Hin]; [discriminate|]).
  apply elem_of_nil in Hin. exact Hin.
Qed.

(** C6, amended -- the report on the ports still in use ends the runs that
    return, and only those.  [shutdown_handler] raises only what an earlier
    step raised (closing the session, stopping the controller, obtaining or
    unloading a module), never because ports are held, and it returns
    whenever these steps do, whatever ports are held; everything it logs is
    at level DEBUG or WARNING.  A run that returns is: the session closed,
    the controller stopped, every module of [MODULES] announced at DEBUG,
    obtained and unloaded, in order, and then, for the sets [tcp_ports] and
    [udp_ports] read from the singleton of [PortManager], one warning that
    carries the TCP ports when that set is not empty and one that carries
    the UDP ports when that set is not empty, TCP first, and nothing else.
    A run that raises gives no warning: all it logs is at DEBUG. *)
Theorem C6_leaked_ports_are_warnings env app w :
  (forall e, (shutdown_handler env app w).1 = Raise e ->
     http_close_session env = Some e \/ controller_stop env = Some e \/
     exists m, m ∈ MODULES env /\
       (init_error env w m = Some e \/ module_unload env m = Some e)) /\
  (forall lvl msg,
     Log lvl msg ∈ run_events (shutdown_handler env app) w ->
     lvl = DEBUG \/ lvl = WARNING) /\
  ((shutdown_handler env app w).1 = Ok tt ->
   exists l,
     PortManager__instance (shutdown_handler env app w).2 = Some l /\
     forall tcp udp,
       tcp = tcp_ports (deref (shutdown_handler env app w).2 l) ->
       udp = udp_ports (deref (shutdown_handler env app w).2 l) ->
       run_events (shutdown_handler env app) w =
         [Begin c_HTTPClient_close_session; Done c_HTTPClient_close_session;
          Begin c_Controller_stop; Done c_Controller_stop] ++
         flat_map (fun m => [Log DEBUG (Unloading_module m);
                             Begin (c_instance m); Done (c_instance m);
                             Begin (c_unload m); Done (c_unload m)])
           (MODULES env) ++
         (if decide (tcp = ∅) then []
          else [Log WARNING (TCP_ports_are_still_used tcp)]) ++
         (if decide (udp = ∅) then []
          else [Log WARNING (UDP_ports_are_still_used udp)])) /\
  (forall e, (shutdown_handler env app w).1 = Raise e ->
     forall lvl msg,
       Log lvl msg ∈ run_events (shutdown_handler env app) w -> lvl = DEBUG) /\
  (http_close_session env = None -> controller_stop env = None ->
   (forall m, m ∈ MODULES env ->
      init_error env w m = None /\ module_unload env m = None) ->
   (shutdown_handler env app w).1 = Ok tt).
Proof.
  assert (Hret : (shutdown_handler env app w).1 = Ok tt ->
    exists l,
      PortManager__instance (shutdown_handler env app w).2 = Some l /\
      forall tcp udp,
        tcp = tcp_ports (deref (shutdown_handler env app w).2 l) ->
        udp = udp_ports (deref (shutdown_handler env app w).2 l) ->
        run_events (shutdown_handler env app) w =
          [Begin c_HTTPClient_close_session; Done c_HTTPClient_close_session;
           Begin c_Controller_stop; Done c_Controller_stop] ++
          flat_map (fun m => [Log DEBUG (Unloading_module m);
                              Begin (c_instance m); Done (c_instance m);
                              Begin (c_unload m); Done (c_unload m)])
            (MODULES env) ++
          (if decide (tcp = ∅) then []
           else [Log WARNING (TCP_ports_are_still_used tcp)]) ++
          (if decide (udp = ∅) then []
           else [Log WARNING (UDP_ports_are_still_used udp)])).
  { intros Hok. destruct (shutdown_returned_singleton env app w Hok) as [l Hl].
    exists l. split; [exact Hl|]. intros tcp udp -> ->.
    rewrite shutdown_events.
    replace (current_ports (shutdown_handler env app w).2)
      with (deref (shutdown_handler env app w).2 l)
      by (unfold current_ports; rewrite Hl; reflexivity).
    rewrite shutdown_outcome in Hok. revert Hok.
    unfold shutdown_result, shutdown_trace.
    destruct (http_close_session env) as [e1|]; [discriminate|].
    destruct (controller_stop env) as [e2|]; [discriminate|].
    intros Hres. rewrite Hres.
    rewrite (unloading_trace_all _ _ _ (unloading_returned _ _ _ Hres)).
    reflexivity. }
  revert Hret. rewrite shutdown_events, shutdown_outcome.
  unfold shutdown_result, shutdown_trace.
  set (k := leak_report _).
  assert (Hk : forall e, e ∈ k -> exists msg, e = Log WARNING msg)
    by (intros e; apply elem_of_leak_report).
  clearbody k. intros Hret.
  assert (Hloop : forall lvl msg,
    Log lvl msg ∈ unloading_trace env (init_error env w) (MODULES env) ->
    lvl = DEBUG).
  { intros lvl msg Hin. apply unloading_trace_events in Hin. cbn in Hin.
    destruct lvl; try contradiction. reflexivity. }
  split; [|split; [|split; [exact Hret|split]]].
  - intros e. destruct (http_close_session env) as [e1|]; [intros [= ->]; now left|].
    destruct (controller_stop env) as [e2|]; [intros [= ->]; right; now left|].
    intros H. right. right. apply (unloading_raised _ _ _ _ H).
  - intros lvl msg Hin.
    destruct (http_close_session env) as [e1|];
      [|destruct (controller_stop env) as [e2|]];
      repeat (apply elem_of_cons in Hin as [Hin|Hin]; [discriminate|]);
      try (apply elem_of_nil in Hin; contradiction).
    apply elem_of_app in Hin as [Hin|Hin]; [left; exact (Hloop _ _ Hin)|].
    destruct (unloading_result env (init_error env w) (MODULES env));
      [|apply elem_of_nil in Hin; contradiction].
    destruct (Hk _ Hin) as [msg' [= -> _]]. now right.
  - intros e He lvl msg Hin.
    destruct (http_close_session env) as [e1|];
      [|destruct (controller_stop env) as [e2|]];
      repeat (apply elem_of_cons in Hin as [Hin|Hin]; [discriminate|]);
      try (apply elem_of_nil in Hin; contradiction).
    rewrite He, app_nil_r in Hin. exact (Hloop _ _ Hin).
  - intros -> -> Hall.
    apply (unloading_all env (init_error env w) (MODULES env) Hall).
Qed.

(** The amended C6 on a shutdown in a world where TCP port 5000 and UDP
    port 10000 are still in use: the run returns and ends with the two
    warnings. *)
Lemma C6_witness :
  (shutdown_handler linux_host the_app leaking_world).1 = Ok tt /\
  run_events (shutdown_handler linux_host the_app) leaking_world =
    [Begin c_HTTPClient_close_session; Done c_HTTPClient_close_session;
     Begin c_Controller_stop; Done c_Controller_stop] ++
    flat_map (fun m => [Log DEBUG (Unloading_module m);
                        Begin (c_instance m); Done (c_instance m);
                        Begin (c_unload m); Done (c_unload m)])
      (MODULES linux_host) ++
    [Log WARNING (TCP_ports_are_still_used {[ 5000%N ]});
     Log WARNING (UDP_ports_are_still_used {[ 10000%N ]})].
Proof.
  split; [reflexivity|].
  destruct (proj1 (proj2 (proj2
              (C6_leaked_ports_are_warnings linux_host the_app leaking_world)))
              eq_refl) as (l & Hl & Hrun).
  rewrite (Hrun _ _ eq_refl eq_refl).
  assert (E : l = 0) by (vm_compute in Hl; congruence).
  rewrite E. vm_compute. reflexivity.
Defined.

(** C7 -- the image listing is launched and forgotten.  In every run of
    [start_app], [ensure_future] comes after [Controller.start] has
    returned and before every event of the module loop; nothing of the
    coroutine runs during the handler; when the handler returns the task is
    in the loop, pending; the outcome of the listing has no influence on the
    run of the handler; and when the loop later runs the task, an exception
    of the listing is stored in the task. *)
Theorem C7_background_task env app w :
  follows (run_events (start_app env app) w)
    (fun a => exists cs, a = Done (c_Controller_start cs))
    (fun e => exists co, e = EnsureFuture co) /\
  follows (run_events (start_app env app) w)
    (eq (EnsureFuture (list_images_of "Qemu"))) loading_step /\
  (forall m, Begin (c_list_images m) ∉ run_events (start_app env app) w) /\
  ((start_app env app w).1 = Ok tt ->
   loop_tasks (start_app env app w).2 =
     loop_tasks w ++
     [{| task_coro := list_images_of "Qemu"; task_outcome := None |}]) /\
  (forall o, start_app (with_list_images o env) app w = start_app env app w) /\
  (forall e,
     qemu_list_images env = Some e ->
     loop_tasks w = [] ->
     (start_app env app w).1 = Ok tt ->
     loop_tasks (loop_run_tasks env (start_app env app w).2) =
       [{| task_coro := list_images_of "Qemu";
           task_outcome := Some (Raise e) |}]).
Proof.
  assert (Htasks : (start_app env app w).1 = Ok tt ->
    loop_tasks (start_app env app w).2 =
      loop_tasks w ++
      [{| task_coro := list_images_of "Qemu"; task_outcome := None |}]).
  { destruct (start_app_run env app w) as (w' & Hrun & _ & _ & Hta & _).
    rewrite Hrun. cbn [fst snd]. unfold startup_result. intros Hok.
    rewrite Hta. destruct (steps_result env (init_error env w)); [reflexivity|discriminate]. }
  split; [|split; [|split; [|split; [exact Htasks|split]]]].
  - rewrite startup_events. unfold startup_trace, steps_trace.
    set (k := loading_trace _ _ _). clearbody k.
    destruct (db_connect env) as [e1|].
    { apply follows_never. intros e He [co Hco]. in_prefix He; discriminate. }
    destruct (db_computes env) as [cs|e2].
    2: { apply follows_never. intros e He [co Hco]. in_prefix He; discriminate. }
    destruct (controller_start env cs) as [e3|].
    { apply follows_never. intros e He [co Hco]. in_prefix He; discriminate. }
    eapply (follows_split
             (header env ++ [Begin (c_connect_to_db app);
                             Done (c_connect_to_db app);
                             Begin (c_get_computes app);
                             Done (c_get_computes app);
                             Begin (c_Controller_start cs)])
             (Done (c_Controller_start cs))).
    + rewrite <- app_assoc. reflexivity.
    + exists cs. reflexivity.
    + intros [co Hco]. discriminate.
    + intros e He [co Hco]. in_prefix He; discriminate.
  - rewrite startup_events. unfold startup_trace, steps_trace.
    set (k := loading_trace _ _ _). clearbody k.
    destruct (db_connect env) as [e1|].
    { apply follows_never. intros e He. in_prefix He; cbn; tauto. }
    destruct (db_computes env) as [cs|e2].
    2: { apply follows_never. intros e He. in_prefix He; cbn; tauto. }
    destruct (controller_start env cs) as [e3|].
    { apply follows_never. intros e He. in_prefix He; cbn; tauto. }
    destruct (init_error env w "Qemu") as [e4|].
    { apply follows_never. intros e He. in_prefix He; cbn; tauto. }
    eapply (follows_split
             (header env ++ [Begin (c_connect_to_db app);
                             Done (c_connect_to_db app);
                             Begin (c_get_computes app);
                             Done (c_get_computes app);
                             Begin (c_Controller_start cs);
                             Done (c_Controller_start cs);
                             Begin (c_instance "Qemu");
                             Done (c_instance "Qemu")])
             (EnsureFuture (list_images_of "Qemu"))).
    + rewrite <- app_assoc. reflexivity.
    + reflexivity.
    + cbn. tauto.
    + intros e He. in_prefix He; cbn; tauto.
  - intros m Hin. rewrite startup_events in Hin.
    unfold startup_trace, steps_trace in Hin.
    apply elem_of_app in Hin as [Hin|Hin];
      [apply header_events in Hin; destruct Hin as [?|[?|?]]; discriminate|].
    destruct (db_connect env) as [e1|];
      [|destruct (db_computes env) as [cs0|e2];
        [destruct (controller_start env cs0) as [e3|];
         [|destruct (init_error env w "Qemu") as [e4|]]|]];
      repeat (apply elem_of_cons in Hin as [Hin|Hin]; [congruence|]);
      try (apply elem_of_nil in Hin; contradiction).
    apply loading_trace_events in Hin. contradiction.
  - intros o. reflexivity.
  - intros e Hq Hnil Hok. unfold loop_run_tasks.
    rewrite (Htasks Hok), Hnil. cbn [Datatypes.app run_tasks run_task task_outcome task_coro run_coroutine].
    rewrite Hq. run_ops. reflexivity.
Qed.

(** C7 on a Windows host whose image listing raises: the startup returns
    and the exception ends in the task. *)
Lemma C7_witness :
  loop_tasks
    (loop_run_tasks windows_host (start_app windows_host the_app empty_world).2) =
    [{| task_coro := list_images_of "Qemu";
        task_outcome := Some (Raise "OSError") |}].
Proof.
  apply (proj2 (proj2 (proj2 (proj2 (proj2
           (C7_background_task windows_host the_app empty_world)))))
           "OSError").
  - reflexivity.
  - reflexivity.
  - vm_compute. reflexivity.
Defined.

(** C8, as stated, fails: on Windows the timer is asked of the loop before
    the module loop, not after it. *)
Lemma C8_counterexample :
  ~ tick_after_loading (run_events (start_app windows_host the_app) empty_world).
Proof.
  intros H.
  specialize (H 1 12 (Log DEBUG (Loading_module "VPCS"))).
  assert (12 < 1) as Habs; [|lia].
  apply H; [vm_compute; reflexivity|vm_compute; reflexivity|exact I].
Qed.

(** C8, amended -- [start_app] asks the loop for the wake-up timer exactly
    when [sys.platform] starts with "win", once, with the delay
    [WAKEUP_DELAY], and leaves it in the loop; on Windows this is the
    second event of the run, before every call to a collaborator and before
    the module loop; on another platform no timer is asked for.  When the
    timer fires, [wakeup] asks for it again with the same delay. *)
Theorem C8_wakeup_tick env app w :
  call_laters (run_events (start_app env app) w) =
    (if String.prefix "win" (sys_platform env)
     then [(WAKEUP_DELAY, wakeup_callback)]
     else []) /\
  loop_timers (start_app env app w).2 =
    loop_timers w ++
    (if String.prefix "win" (sys_platform env)
     then [(WAKEUP_DELAY, wakeup_callback)]
     else []) /\
  (String.prefix "win" (sys_platform env) = true ->
   run_events (start_app env app) w !! 1 =
     Some (CallLater WAKEUP_DELAY wakeup_callback) /\
   follows (run_events (start_app env app) w)
     (eq (CallLater WAKEUP_DELAY wakeup_callback))
     (fun e => a_call e \/ loading_step e)) /\
  (forall w0 n,
     loop_timers w0 = [(n, wakeup_callback)] ->
     loop_timers (loop_fire_timers w0) = [(WAKEUP_DELAY, wakeup_callback)]).
Proof.
  split; [|split; [|split]].
  - rewrite startup_events. apply call_laters_startup.
  - destruct (start_app_run env app w) as (w' & Hrun & _ & Hti & _).
    rewrite Hrun. exact Hti.
  - intros Hwin. rewrite startup_events.
    unfold startup_trace, steps_trace, header. rewrite Hwin.
    split; [reflexivity|].
    eapply (follows_split [SetLevel ERROR]
              (CallLater WAKEUP_DELAY wakeup_callback)).
    + reflexivity.
    + reflexivity.
    + cbn. tauto.
    + intros e He. in_list He. cbn. tauto.
  - intros w0 n Hw0. unfold loop_fire_timers. rewrite Hw0.
    cbn [for_each run_callback snd]. run_ops. reflexivity.
Qed.

(** The amended C8 on a Windows host. *)
Lemma C8_witness :
  run_events (start_app windows_host the_app) empty_world !! 1 =
    Some (CallLater WAKEUP_DELAY wakeup_callback) /\
  follows (run_events (start_app windows_host the_app) empty_world)
    (eq (CallLater WAKEUP_DELAY wakeup_callback))
    (fun e => a_call e \/ loading_step e).
Proof.
  apply (proj1 (proj2 (proj2
           (C8_wakeup_tick windows_host the_app empty_world)))).
  reflexivity.
Defined.

(** C9, as stated, fails: when the database is connected and
    [get_computes] raises, [start_app] raises that exception. *)
Lemma C9_counterexample :
  (start_app computes_unreadable the_app empty_world).1 = Raise "SQLAlchemyError" /\
  ~ later_failures_isolated computes_unreadable the_app empty_world.
Proof.
  split; [vm_compute; reflexivity|].
  intros H. specialize (H eq_refl). revert H. vm_compute. discriminate.
Qed.

(** C9, amended -- [start_app] stops at the first step that raises and
    propagates its exception; no later step runs.  After the configuration
    of the logger and of the loop ([header]): when [connect_to_db] raises,
    the run is that call and its failure; when [get_computes] raises, the
    controller is not started; when [Controller.start] raises, the Qemu
    singleton is not obtained; when obtaining the Qemu singleton raises,
    no listing is scheduled and no module is loaded; when obtaining the
    singleton of a module of the loop raises, the modules before it in
    [MODULES] have been given the port manager and the run ends with that
    failure: no later module is obtained.  The handler returns when none of
    them raises.  Only the outcome of the scheduled image listing has no
    influence on the outcome of the handler. *)
Theorem C9_startup_failures_propagate env app w :
  (forall e, db_connect env = Some e ->
     (start_app env app w).1 = Raise e /\
     run_events (start_app env app) w =
       header env ++
       [Begin (c_connect_to_db app); Failed (c_connect_to_db app) e]) /\
  (db_connect env = None ->
   forall e, db_computes env = Raise e ->
     (start_app env app w).1 = Raise e /\
     run_events (start_app env app) w =
       header env ++
       [Begin (c_connect_to_db app); Done (c_connect_to_db app);
        Begin (c_get_computes app); Failed (c_get_computes app) e]) /\
  (db_connect env = None ->
   forall cs e, db_computes env = Ok cs -> controller_start env cs = Some e ->
     (start_app env app w).1 = Raise e /\
     run_events (start_app env app) w =
       header env ++
       [Begin (c_connect_to_db app); Done (c_connect_to_db app);
        Begin (c_get_computes app); Done (c_get_computes app);
        Begin (c_Controller_start cs); Failed (c_Controller_start cs) e]) /\
  (db_connect env = None ->
   forall cs, db_computes env = Ok cs -> controller_start env cs = None ->
     (forall e, init_error env w "Qemu" = Some e ->
        (start_app env app w).1 = Raise e /\
        run_events (start_app env app) w =
          header env ++
          [Begin (c_connect_to_db app); Done (c_connect_to_db app);
           Begin (c_get_computes app); Done (c_get_computes app);
           Begin (c_Controller_start cs); Done (c_Controller_start cs);
           Begin (c_instance "Qemu"); Failed (c_instance "Qemu") e]) /\
     (init_error env w "Qemu" = None ->
      forall ms1 m ms2 e,
        MODULES env = ms1 ++ m :: ms2 ->
        (forall m', m' ∈ ms1 -> init_error env w m' = None) ->
        init_error env w m = Some e ->
        (start_app env app w).1 = Raise e /\
        run_events (start_app env app) w =
          header env ++
          [Begin (c_connect_to_db app); Done (c_connect_to_db app);
           Begin (c_get_computes app); Done (c_get_computes app);
           Begin (c_Controller_start cs); Done (c_Controller_start cs);
           Begin (c_instance "Qemu"); Done (c_instance "Qemu");
           EnsureFuture (list_images_of "Qemu")] ++
          flat_map (fun m' => [Log DEBUG (Loading_module m');
                               Begin (c_instance m'); Done (c_instance m');
                               SetPortManager m' (the_port_manager w)]) ms1 ++
          [Log DEBUG (Loading_module m); Begin (c_instance m);
           Failed (c_instance m) e]) /\
     (init_error env w "Qemu" = None ->
      (forall m, m ∈ MODULES env -> init_error env w m = None) ->
      (start_app env app w).1 = Ok tt)) /\
  (forall o,
     (start_app (with_list_images o env) app w).1 = (start_app env app w).1).
Proof.
  assert (Hli : forall o,
    (start_app (with_list_images o env) app w).1 = (start_app env app w).1)
    by reflexivity.
  revert Hli. rewrite startup_outcome, startup_events.
  unfold startup_result, steps_result, startup_trace, steps_trace.
  intros Hli.
  split; [|split; [|split; [|split; [|exact Hli]]]].
  - intros e ->. split; reflexivity.
  - intros -> e ->. split; reflexivity.
  - intros -> cs e -> ->. split; reflexivity.
  - intros -> cs -> ->. split; [|split].
    + intros e ->. split; reflexivity.
    + intros -> ms1 m ms2 e -> Hms1 Hm.
      split; [apply (loading_first_failure _ 0 ms1 m ms2 e Hms1 Hm)|].
      rewrite (loading_trace_first_failure _ _ ms1 m ms2 e Hms1 Hm).
      reflexivity.
    + intros -> Hall. apply loading_all. exact Hall.
Qed.

(** The amended C9 on a host whose computes cannot be read: the run ends
    with the failure of [get_computes]. *)
Lemma C9_witness :
  (start_app computes_unreadable the_app empty_world).1 = Raise "SQLAlchemyError" /\
  run_events (start_app computes_unreadable the_app) empty_world =
    header computes_unreadable ++
    [Begin (c_connect_to_db the_app); Done (c_connect_to_db the_app);
     Begin (c_get_computes the_app);
     Failed (c_get_computes the_app) "SQLAlchemyError"].
Proof.
  exact (proj1 (proj2
           (C9_startup_failures_propagate computes_unreadable the_app empty_world))
           eq_refl "SQLAlchemyError" eq_refl).
Defined.

(** C10 -- [create_startup_handler] and [create_shutdown_handler] return
    the handler and leave the world as it is: no event, no change of the
    loop or of the singletons. *)
Theorem C10_handlers_are_created_without_effect env app w :
  create_startup_handler env app w = (Ok (start_app env app), w) /\
  create_shutdown_handler env app w = (Ok (shutdown_handler env app), w) /\
  run_events (create_startup_handler env app) w = [] /\
  run_events (create_shutdown_handler env app) w = [].
Proof.
  repeat split; apply run_events_trace; cbn; now rewrite app_nil_r.
Qed.

(** * Further properties *)

Lemma steps_frame env app w :
  asyncio_level (steps env app w).2 = ERROR /\
  loop_debug (steps env app w).2 =
    (if decide (log_effective_level env = DEBUG) then true else loop_debug w) /\
  Module__instance (steps env app w).2 =
    match steps_result env (init_error env w) with
    | Ok _ => with_singleton "Qemu" (Module__instance w)
    | Raise _ => Module__instance w
    end.
Proof.
  unfold steps, steps_result, init_error, with_singleton.
  destruct w as [tr ti ta db lv hp pmi mi].
  cbn [Module__instance loop_debug].
  destruct (String.prefix "win" (sys_platform env));
    destruct (decide (log_effective_level env = DEBUG));
    destruct (db_connect env) eqn:H1;
    destruct (db_computes env) as [cs|] eqn:H2;
    try destruct (controller_start env cs) eqn:H3;
    destruct (mi !! "Qemu") eqn:H4;
    destruct (module_init env "Qemu") eqn:H5;
    run_ops; rewrite ?H1, ?H2; run_ops; rewrite ?H3; run_ops;
    rewrite ?H4; run_ops; rewrite ?H5; run_ops;
    cbn [snd asyncio_level loop_debug Module__instance];
    repeat split; reflexivity.
Qed.

Lemma load_frame env m w :
  asyncio_level (load env m w).2 = asyncio_level w /\
  loop_debug (load env m w).2 = loop_debug w /\
  (forall l, PortManager__instance w = Some l ->
     PortManager__instance (load env m w).2 = Some l /\
     heap (load env m w).2 = heap w) /\
  (PortManager__instance w = None ->
   (PortManager__instance (load env m w).2 = None /\
    heap (load env m w).2 = heap w) \/
   (PortManager__instance (load env m w).2 = Some (length (heap w)) /\
    heap (load env m w).2 = heap w ++ [new_PortManager])).
Proof.
  destruct w as [tr ti ta db lv hp pmi mi]. run.
  destruct (mi !! m) as [mo|]; [|destruct (module_init env m)];
    destruct pmi as [l|]; run;
    cbn [snd asyncio_level loop_debug PortManager__instance heap];
    repeat split; try reflexivity; try discriminate; try assumption;
    try (intros _; left; split; reflexivity);
    try (intros _; right; split; reflexivity).
Qed.

Lemma loading_frame env ms : forall w,
  asyncio_level (for_each ms (load env) w).2 = asyncio_level w /\
  loop_debug (for_each ms (load env) w).2 = loop_debug w /\
  (forall l, PortManager__instance w = Some l ->
     PortManager__instance (for_each ms (load env) w).2 = Some l /\
     heap (for_each ms (load env) w).2 = heap w) /\
  (PortManager__instance w = None ->
   (PortManager__instance (for_each ms (load env) w).2 = None /\
    heap (for_each ms (load env) w).2 = heap w) \/
   (PortManager__instance (for_each ms (load env) w).2 = Some (length (heap w)) /\
    heap (for_each ms (load env) w).2 = heap w ++ [new_PortManager])).
Proof.
  induction ms as [|m rest IH]; intros w.
  - cbn. split; [reflexivity|]. split; [reflexivity|]. split.
    + intros l ->. split; reflexivity.
    + intros ->. left. split; reflexivity.
  - rewrite for_each_cons.
    destruct (load_frame env m w) as (Hlv & Hdb & Hsome & Hnone).
    destruct (load env m w) as [[[]|e] w1]; cbn [snd] in *.
    + destruct (IH w1) as (Hlv' & Hdb' & Hsome' & Hnone').
      split; [congruence|]. split; [congruence|]. split.
      * intros l Hl. destruct (Hsome l Hl) as [Hpm Hhp].
        destruct (Hsome' l Hpm) as [-> ->]. split; [reflexivity|exact Hhp].
      * intros Hn. destruct (Hnone Hn) as [[Hpm Hhp]|[Hpm Hhp]].
        -- destruct (Hnone' Hpm) as [[-> ->]|[-> ->]]; rewrite Hhp; [left|right];
             split; reflexivity.
        -- destruct (Hsome' _ Hpm) as [-> ->]. right. split; [reflexivity|exact Hhp].
    + split; [assumption|]. split; [assumption|]. split; assumption.
Qed.

Lemma drain_keeps_refl w : drain_keeps w w.
Proof. repeat split; auto. Qed.

Lemma drain_keeps_trans w1 w2 w3 :
  drain_keeps w1 w2 -> drain_keeps w2 w3 -> drain_keeps w1 w3.
Proof.
  intros (A1 & A2 & A3 & A4 & A5 & A6 & A7) (B1 & B2 & B3 & B4 & B5 & B6 & B7).
  repeat split; try congruence. intros m x Hm. apply B7, A7, Hm.
Qed.

Lemma call_outcome_keeps c o w : drain_keeps w (call c (outcome o) w).2.
Proof.
  destruct w as [tr ti ta db lv hp pmi mi]. destruct o; run_ops;
    repeat split; auto.
Qed.

Lemma insert_keeps (mi : gmap string Module) (m : string) (v : Module) :
  mi !! m = None ->
  forall m' x, mi !! m' = Some x -> <[m:=v]> mi !! m' = Some x.
Proof.
  intros Hm m' x Hx. rewrite lookup_insert_ne; [exact Hx|]. congruence.
Qed.

Lemma drain_frame env m w :
  drain_keeps w (drain env m w).2 /\
  ((drain env m w).1 = Ok tt -> is_Some (Module__instance (drain env m w).2 !! m)).
Proof.
  destruct w as [tr ti ta db lv hp pmi mi]. run. unfold release_ports.
  cbn [Module__instance].
  destruct (mi !! m) as [[[l|]]|] eqn:Hm; [| |destruct (module_init env m) eqn:Hi];
    run_ops; rewrite ?lookup_insert_eq, ?Hm;
    try destruct (module_unload env m); run_ops;
    cbn [fst snd]; unfold drain_keeps;
    cbn [asyncio_level loop_debug loop_timers loop_tasks PortManager__instance
         heap Module__instance];
    rewrite ?length_alter;
    (split; [split; [reflexivity|]; split; [reflexivity|]; split; [reflexivity|];
             split; [reflexivity|]; split; [reflexivity|]; split; [reflexivity|];
             auto using insert_keeps|]);
    try discriminate; intros _; rewrite ?lookup_insert_eq, ?Hm; eauto.
Qed.

Lemma unloading_frame env ms : forall w,
  drain_keeps w (for_each ms (drain env) w).2 /\
  ((for_each ms (drain env) w).1 = Ok tt ->
   forall m, m ∈ ms -> is_Some (Module__instance (for_each ms (drain env) w).2 !! m)).
Proof.
  induction ms as [|m rest IH]; intros w.
  - cbn. split; [apply drain_keeps_refl|]. intros _ m Hin. inversion Hin.
  - rewrite for_each_cons. destruct (drain_frame env m w) as [Hk Hm].
    destruct (drain env m w) as [[[]|e] w1]; cbn [fst snd] in *.
    + destruct (IH w1) as [Hk' Hin']. split; [exact (drain_keeps_trans _ _ _ Hk Hk')|].
      intros Hok m' [->|Hin]%elem_of_cons; [|apply Hin'; assumption].
      destruct (Hm eq_refl) as [x Hx]. exists x.
      destruct Hk' as (_ & _ & _ & _ & _ & _ & Hmods). apply Hmods, Hx.
    + split; [exact Hk|discriminate].
Qed.

Lemma drains_frame env w :
  drain_keeps w (drains env w).2 /\
  ((drains env w).1 = Ok tt ->
   forall m, m ∈ MODULES env -> is_Some (Module__instance (drains env w).2 !! m)).
Proof.
  unfold drains, HTTPClient_close_session, Controller_stop, bind.
  assert (H1 := call_outcome_keeps c_HTTPClient_close_session (http_close_session env) w).
  destruct (call c_HTTPClient_close_session (outcome (http_close_session env)) w)
    as [[[]|e1] w1]; cbn [fst snd] in *; [|split; [exact H1|discriminate]].
  assert (H2 := call_outcome_keeps c_Controller_stop (controller_stop env) w1).
  destruct (call c_Controller_stop (outcome (controller_stop env)) w1)
    as [[[]|e2] w2]; cbn [fst snd] in *;
    [|split; [exact (drain_keeps_trans _ _ _ H1 H2)|discriminate]].
  destruct (unloading_frame env (MODULES env) w2) as [H3 H4].
  split; [|exact H4].
  exact (drain_keeps_trans _ _ _ (drain_keeps_trans _ _ _ H1 H2) H3).
Qed.

Lemma start_app_frame env app w :
  asyncio_level (start_app env app w).2 = ERROR /\
  loop_debug (start_app env app w).2 =
    (if decide (log_effective_level env = DEBUG) then true else loop_debug w) /\
  (forall l, PortManager__instance w = Some l ->
     PortManager__instance (start_app env app w).2 = Some l /\
     heap (start_app env app w).2 = heap w) /\
  (PortManager__instance w = None ->
   (PortManager__instance (start_app env app w).2 = None /\
    heap (start_app env app w).2 = heap w) \/
   (PortManager__instance (start_app env app w).2 = Some (length (heap w)) /\
    heap (start_app env app w).2 = heap w ++ [new_PortManager])).
Proof.
  rewrite start_app_steps.
  destruct (steps_frame env app w) as (Hlv & Hdb & _).
  destruct (steps_run env app w) as (w1 & Hrun & _ & _ & _ & Hpm & Hhp & _).
  rewrite Hrun in *. cbn [snd] in *.
  destruct (steps_result env (init_error env w)) as [[]|e].
  - destruct (loading_frame env (MODULES env) w1) as (Hlv' & Hdb' & Hsome & Hnone).
    rewrite Hpm, Hhp in *.
    split; [congruence|]. split; [congruence|]. split; assumption.
  - cbn [snd]. rewrite Hpm, Hhp.
    split; [assumption|]. split; [assumption|]. split.
    + intros l ->. split; reflexivity.
    + intros ->. left. split; reflexivity.
Qed.

(** X1 -- [start_app] always silences the asyncio logger below ERROR, and
    turns the debug mode of the loop on exactly when the effective level of
    the module's logger is DEBUG (otherwise the mode is left as it was);
    this is done before the first step that can fail, so it holds of every
    run, also of one that raises. *)
Theorem start_app_configures_logging env app w :
  asyncio_level (start_app env app w).2 = ERROR /\
  loop_debug (start_app env app w).2 =
    (if decide (log_effective_level env = DEBUG) then true else loop_debug w) /\
  run_events (start_app env app) w !! 0 = Some (SetLevel ERROR).
Proof.
  destruct (start_app_frame env app w) as (Hlv & Hdb & _).
  split; [exact Hlv|]. split; [exact Hdb|].
  rewrite startup_events. reflexivity.
Qed.

(** X2 -- [start_app] never changes a port manager.  When the singleton of
    [PortManager] exists it is kept, and no object is created; when it does
    not exist at most one is created, with no port in use, and it becomes
    the singleton.  In every run the ports in use are those in use
    before. *)
Theorem start_app_keeps_the_ports env app w :
  (forall l, PortManager__instance w = Some l ->
     PortManager__instance (start_app env app w).2 = Some l /\
     heap (start_app env app w).2 = heap w) /\
  (PortManager__instance w = None ->
   (PortManager__instance (start_app env app w).2 = None /\
    heap (start_app env app w).2 = heap w) \/
   (PortManager__instance (start_app env app w).2 = Some (length (heap w)) /\
    heap (start_app env app w).2 = heap w ++ [new_PortManager])) /\
  current_ports (start_app env app w).2 = current_ports w.
Proof.
  destruct (start_app_frame env app w) as (_ & _ & Hsome & Hnone).
  split; [exact Hsome|]. split; [exact Hnone|].
  unfold current_ports, deref.
  destruct (PortManager__instance w) as [l|] eqn:Hpm.
  - destruct (Hsome l eq_refl) as [-> ->]. reflexivity.
  - destruct (Hnone eq_refl) as [[-> _]|[-> ->]]; [reflexivity|].
    apply lookup_fresh.
Qed.

(** X3 -- when [connect_to_db], [get_computes] or [Controller.start] raises,
    [start_app] raises and has touched no singleton and scheduled no task:
    no module singleton was created, no port manager, and the image listing
    is not in the loop. *)
Theorem start_app_failing_early_touches_no_singleton env app w :
  (forall cs, db_connect env = None -> db_computes env = Ok cs ->
     controller_start env cs <> None) ->
  (exists e, (start_app env app w).1 = Raise e) /\
  Module__instance (start_app env app w).2 = Module__instance w /\
  PortManager__instance (start_app env app w).2 = PortManager__instance w /\
  heap (start_app env app w).2 = heap w /\
  loop_tasks (start_app env app w).2 = loop_tasks w.
Proof.
  intros Hfail. rewrite start_app_steps.
  destruct (steps_frame env app w) as (_ & _ & Hmods).
  destruct (steps_run env app w) as (w1 & Hrun & _ & _ & Hta & Hpm & Hhp & _).
  rewrite Hrun in *. cbn [snd] in *.
  assert (Hres : exists e, steps_result env (init_error env w) = Raise e).
  { unfold steps_result.
    destruct (db_connect env) as [e|]; [eauto|].
    destruct (db_computes env) as [cs|e]; [|eauto].
    destruct (controller_start env cs) as [e|] eqn:Hcs; [eauto|].
    destruct (Hfail cs eq_refl eq_refl Hcs). }
  destruct Hres as [e Hres]. rewrite Hres in *. cbn [fst snd].
  rewrite app_nil_r in Hta. split; [eauto|]. repeat split; assumption.
Qed.

Lemma start_app_obtains_qemu env app w :
  steps_result env (init_error env w) = Ok tt ->
  is_Some (Module__instance (start_app env app w).2 !! "Qemu").
Proof.
  intros Hres. rewrite start_app_steps.
  destruct (steps_frame env app w) as (_ & _ & Hmods).
  destruct (steps_run env app w) as (w1 & Hrun & _ & _ & _ & _ & _ & Hie).
  rewrite Hrun, Hres in *. cbn [snd] in *.
  assert (Hq1 : is_Some (Module__instance w1 !! "Qemu")).
  { rewrite Hmods. unfold with_singleton.
    destruct (Module__instance w !! "Qemu") eqn:Hm; [rewrite Hm; eauto|].
    rewrite lookup_insert_eq. eauto. }
  destruct (loading_run env (init_error env w) (MODULES env) w1 Hie)
    as (w' & Hrun' & _ & _ & _ & _ & _ & _ & Hin & Hout).
  rewrite Hrun'. cbn [snd].
  destruct (decide ("Qemu" ∈ loaded (init_error env w) (MODULES env))) as [H|H].
  - rewrite (Hin _ H). eauto.
  - rewrite (Hout _ H). exact Hq1.
Qed.

(** X4 -- once [connect_to_db], [get_computes], [Controller.start] and
    [Qemu.instance()] have returned, the image listing is in the loop,
    pending, and the Qemu singleton exists: also when the module loop then
    raises and [start_app] with it. *)
Theorem start_app_schedules_the_listing_before_loading env app w cs :
  db_connect env = None ->
  db_computes env = Ok cs ->
  controller_start env cs = None ->
  init_error env w "Qemu" = None ->
  loop_tasks (start_app env app w).2 =
    loop_tasks w ++
    [{| task_coro := list_images_of "Qemu"; task_outcome := None |}] /\
  is_Some (Module__instance (start_app env app w).2 !! "Qemu").
Proof.
  intros Hdb Hcs Hstart Hq.
  assert (Hres : steps_result env (init_error env w) = Ok tt).
  { unfold steps_result. now rewrite Hdb, Hcs, Hstart, Hq. }
  split; [|exact (start_app_obtains_qemu env app w Hres)].
  destruct (start_app_run env app w) as (w' & Hrun & _ & _ & Hta & _).
  rewrite Hrun. cbn [snd]. rewrite Hta, Hres. reflexivity.
Qed.

Lemma shutdown_trace_logs env ie k lvl msg :
  Log lvl msg ∈ shutdown_trace env ie k -> lvl = DEBUG \/ Log lvl msg ∈ k.
Proof.
  unfold shutdown_trace. intros Hin.
  destruct (http_close_session env) as [e1|];
    [|destruct (controller_stop env) as [e2|]];
    repeat (apply elem_of_cons in Hin as [Hin|Hin]; [discriminate|]);
    try (apply elem_of_nil in Hin; contradiction).
  apply elem_of_app in Hin as [Hin|Hin].
  - left. apply unloading_trace_events in Hin. cbn in Hin.
    destruct lvl; try contradiction. reflexivity.
  - destruct (unloading_result env ie (MODULES env));
      [now right|apply elem_of_nil in Hin; contradiction].
Qed.

(** X6 -- a shutdown in a world with no port manager (no startup has run):
    when it returns, the last lines have created the singleton of
    [PortManager], with no port in use, and nothing is reported: every log
    record of the run is at DEBUG. *)
Theorem shutdown_without_port_manager env app w :
  PortManager__instance w = None ->
  (shutdown_handler env app w).1 = Ok tt ->
  PortManager__instance (shutdown_handler env app w).2 = Some (length (heap w)) /\
  current_ports (shutdown_handler env app w).2 = new_PortManager /\
  (forall lvl msg,
     Log lvl msg ∈ run_events (shutdown_handler env app) w -> lvl = DEBUG).
Proof.
  intros Hnone Hok.
  assert (Hcur : PortManager__instance (shutdown_handler env app w).2 =
                   Some (length (heap w)) /\
                 current_ports (shutdown_handler env app w).2 = new_PortManager).
  { revert Hok. rewrite shutdown_handler_drains.
    destruct (drains_frame env w) as [(_ & _ & _ & _ & Hpm & Hlen & _) _].
    destruct (drains env w) as [[[]|e] w1]; cbn [fst snd] in *; [|discriminate].
    intros _.
    destruct (report_leaks_frame w1) as (_ & _ & _ & _ & _ & _ & Hpm' & Hhp').
    rewrite Hnone in Hpm. unfold current_ports, deref.
    rewrite Hpm', Hhp'. unfold the_port_manager. rewrite Hpm, Hlen.
    split; [reflexivity|]. rewrite <- Hlen. apply lookup_fresh. }
  destruct Hcur as [Hpm Hcur]. split; [exact Hpm|]. split; [exact Hcur|].
  intros lvl msg Hin. rewrite shutdown_events, Hcur in Hin.
  apply shutdown_trace_logs in Hin as [Hlvl|Hin]; [exact Hlvl|].
  unfold leak_report in Hin. cbn [new_PortManager tcp_ports udp_ports] in Hin.
  destruct (decide ((∅ : gset N) = ∅)) as [_|Hne]; [|destruct Hne; reflexivity].
  apply elem_of_nil in Hin. contradiction.
Qed.

Lemma init_error_of_singleton env w m x :
  Module__instance w !! m = Some x -> init_error env w m = None.
Proof. unfold init_error. now intros ->. Qed.

(** X7 -- a shutdown that follows a startup which returned finds every
    module singleton: obtaining them cannot raise, whatever the
    constructors of the modules would do now, so the shutdown returns as
    soon as closing the session, stopping the controller and the unload
    hooks do, and it unloads every module of [MODULES]. *)
Theorem shutdown_after_startup_finds_the_singletons env env' app w :
  (start_app env app w).1 = Ok tt ->
  MODULES env' = MODULES env ->
  (forall m, m ∈ MODULES env' ->
     init_error env' (start_app env app w).2 m = None) /\
  (http_close_session env' = None -> controller_stop env' = None ->
   (forall m, m ∈ MODULES env' -> module_unload env' m = None) ->
   (shutdown_handler env' app (start_app env app w).2).1 = Ok tt /\
   unload_order (run_events (shutdown_handler env' app) (start_app env app w).2) =
     MODULES env').
Proof.
  intros Hok Hms.
  assert (Hie : forall m, m ∈ MODULES env' ->
            init_error env' (start_app env app w).2 m = None).
  { intros m Hin. rewrite Hms in Hin.
    destruct (start_app_run env app w) as (w' & Hrun & _ & _ & _ & Hmods).
    rewrite Hrun in *. cbn [fst snd] in *.
    destruct (Hmods Hok) as [_ Hall].
    exact (init_error_of_singleton _ _ _ _ (Hall m Hin)). }
  split; [exact Hie|]. intros Hclose Hstop Hunload.
  rewrite shutdown_outcome, shutdown_events, unload_order_shutdown.
  unfold shutdown_result. rewrite Hclose, Hstop.
  apply unloading_all. intros m Hin. split; [apply Hie|apply Hunload]; exact Hin.
Qed.

(** X8 -- a second startup after one that returned.  When its first three
    steps return, it returns too, whatever the constructors of the modules
    would do now; it changes no singleton (the port manager, the objects,
    the [port_manager] attribute of every module of [MODULES] are as the
    first startup left them); but nothing guards against the repetition:
    it asks the loop again for the image listing and, on Windows, for the
    wake-up timer. *)
Theorem start_app_twice env env' app w cs :
  (start_app env app w).1 = Ok tt ->
  MODULES env' = MODULES env ->
  db_connect env' = None ->
  db_computes env' = Ok cs ->
  controller_start env' cs = None ->
  (start_app env' app (start_app env app w).2).1 = Ok tt /\
  PortManager__instance (start_app env' app (start_app env app w).2).2 =
    PortManager__instance (start_app env app w).2 /\
  heap (start_app env' app (start_app env app w).2).2 =
    heap (start_app env app w).2 /\
  (forall m, m ∈ MODULES env ->
     Module__instance (start_app env' app (start_app env app w).2).2 !! m =
       Module__instance (start_app env app w).2 !! m) /\
  EnsureFuture (list_images_of "Qemu")
    ∈ run_events (start_app env' app) (start_app env app w).2 /\
  call_laters (run_events (start_app env' app) (start_app env app w).2) =
    (if String.prefix "win" (sys_platform env')
     then [(WAKEUP_DELAY, wakeup_callback)]
     else []).
Proof.
  intros Hok Hms Hdb Hcs Hstart.
  assert (Hq := start_app_obtains_qemu env app w).
  destruct (start_app_run env app w) as (w1 & Hrun & _ & _ & _ & Hmods).
  rewrite Hrun in *. cbn [fst snd] in *.
  destruct (startup_returned _ _ Hok) as [Hsteps _].
  destruct (Hq Hsteps) as [q Hq1].
  destruct (Hmods Hok) as [Hpm1 Hall1]. clear Hmods Hq.
  assert (Hsteps' : steps_result env' (init_error env' w1) = Ok tt).
  { unfold steps_result.
    now rewrite Hdb, Hcs, Hstart, (init_error_of_singleton _ _ _ _ Hq1). }
  assert (Hload' : loading_result (init_error env' w1) (MODULES env') = Ok tt).
  { apply loading_all. intros m Hin. rewrite Hms in Hin.
    exact (init_error_of_singleton _ _ _ _ (Hall1 m Hin)). }
  assert (Hok' : startup_result env' (init_error env' w1) = Ok tt).
  { unfold startup_result. now rewrite Hsteps'. }
  destruct (start_app_frame env' app w1) as (_ & _ & Hsome & Hnone).
  assert (Hsame : PortManager__instance (start_app env' app w1).2 =
                    PortManager__instance w1 /\
                  heap (start_app env' app w1).2 = heap w1).
  { destruct (PortManager__instance w1) as [l|] eqn:Hpm.
    - exact (Hsome l eq_refl).
    - destruct (MODULES env) as [|m0 rest] eqn:Hm0;
        [|specialize (Hpm1 ltac:(discriminate)); discriminate].
      rewrite start_app_steps.
      destruct (steps_run env' app w1) as (w2 & Hrun2 & _ & _ & _ & Hpm2 & Hhp2 & _).
      rewrite Hrun2, Hsteps', Hms. cbn. split; congruence. }
  destruct (start_app_run env' app w1) as (w2 & Hrun2 & _ & Hti & Hta & Hmods2).
  rewrite Hrun2 in *. cbn [fst snd] in *.
  split; [exact Hok'|]. split; [apply Hsame|]. split; [apply Hsame|].
  split; [|split].
  - intros m Hin. destruct (Hmods2 Hok') as [_ Hall2].
    rewrite (Hall2 m) by (rewrite Hms; exact Hin). rewrite (Hall1 m Hin).
    assert (Hne : MODULES env <> []) by (intros E; rewrite E in Hin; inversion Hin).
    rewrite (the_port_manager_Some _ _ (Hpm1 Hne)). reflexivity.
  - rewrite startup_events. unfold startup_trace.
    rewrite (steps_trace_returned _ _ _ _ Hsteps'). unfold steps_trace.
    rewrite Hdb, Hcs, Hstart, (init_error_of_singleton _ _ _ _ Hq1).
    apply elem_of_app. left. apply elem_of_app. right.
    repeat constructor.
  - rewrite startup_events. apply call_laters_startup.
Qed.

Lemma wakeup_run w :
  wakeup w =
    (Ok tt,
     with_timers (fun ts => ts ++ [(WAKEUP_DELAY, wakeup_callback)])
       (with_trace (trace w ++ [CallLater WAKEUP_DELAY wakeup_callback]) w)).
Proof. reflexivity. Qed.

Lemma fire_timers_run ts : forall w,
  exists w',
    for_each ts (fun t : N * Callback => run_callback t.2) w = (Ok tt, w') /\
    loop_timers w' =
      loop_timers w ++ repeat (WAKEUP_DELAY, wakeup_callback) (length ts) /\
    trace w' =
      trace w ++ repeat (CallLater WAKEUP_DELAY wakeup_callback) (length ts).
Proof.
  induction ts as [|[n []] rest IH]; intros w.
  - exists w. cbn. rewrite !app_nil_r. repeat split; reflexivity.
  - rewrite for_each_cons. cbn [run_callback snd]. rewrite wakeup_run.
    match goal with |- context [for_each _ _ ?w0] =>
      destruct (IH w0) as (w' & Hrun & Hti & Htr) end.
    exists w'. split; [exact Hrun|]. rewrite Hti, Htr.
    cbn [with_timers with_trace loop_timers trace length repeat].
    rewrite <- !app_assoc. split; reflexivity.
Qed.

Lemma loop_fire_timers_once w :
  loop_timers (loop_fire_timers w) =
    repeat (WAKEUP_DELAY, wakeup_callback) (length (loop_timers w)) /\
  trace (loop_fire_timers w) =
    trace w ++
    repeat (CallLater WAKEUP_DELAY wakeup_callback) (length (loop_timers w)).
Proof.
  unfold loop_fire_timers.
  destruct (fire_timers_run (loop_timers w) (with_timers (fun _ => []) w))
    as (w' & Hrun & Hti & Htr).
  rewrite Hrun. cbn [snd]. rewrite Hti, Htr. split; reflexivity.
Qed.

(** X9 -- the wake-up tick neither dies out nor multiplies: however often
    the loop fires its timers, as many timers are pending afterwards as
    before, each the wake-up with its delay of 0.5 s, and each firing of a
    timer is one more request to the loop. *)
Theorem wakeup_tick_recurs w n :
  loop_timers (Nat.iter (S n) loop_fire_timers w) =
    repeat (WAKEUP_DELAY, wakeup_callback) (length (loop_timers w)) /\
  trace (Nat.iter n loop_fire_timers w) =
    trace w ++
    repeat (CallLater WAKEUP_DELAY wakeup_callback) (n * length (loop_timers w)).
Proof.
  assert (Hlen : forall k,
    length (loop_timers (Nat.iter k loop_fire_timers w)) = length (loop_timers w)).
  { induction k as [|k IH]; [reflexivity|]. rewrite Nat.iter_succ.
    rewrite (proj1 (loop_fire_timers_once _)), repeat_length. exact IH. }
  split.
  - rewrite Nat.iter_succ. rewrite (proj1 (loop_fire_timers_once _)), Hlen. reflexivity.
  - induction n as [|n IH]; [cbn; now rewrite app_nil_r|].
    rewrite Nat.iter_succ. rewrite (proj2 (loop_fire_timers_once _)), IH, Hlen.
    rewrite <- app_assoc, <- repeat_app. do 2 f_equal. lia.
Qed.

(** X11 -- the [port_manager] fixture gives a port manager that is new: it
    is not one of the objects there were, no port is in use in it, its
    console host is 127.0.0.1 and it is the singleton from then on.  The
    objects there were and the module singletons are left as they are, so
    that, where no reference dangled, no module references the new port
    manager: a module that was given the former one still holds it. *)
Theorem port_manager_fixture_is_fresh s :
  (Conftest.port_manager s).1 = Ok (length (heap (world s))) /\
  PortManager__instance (world (Conftest.port_manager s).2) =
    Some (length (heap (world s))) /\
  heap (world (Conftest.port_manager s).2) =
    heap (world s) ++ [new_PortManager] /\
  current_ports (world (Conftest.port_manager s).2) = new_PortManager /\
  console_host (Conftest.port_manager s).2 !! length (heap (world s)) =
    Some "127.0.0.1" /\
  Module__instance (world (Conftest.port_manager s).2) =
    Module__instance (world s) /\
  (world_ok (world s) ->
   world_ok (world (Conftest.port_manager s).2) /\
   forall m mo,
     Module__instance (world (Conftest.port_manager s).2) !! m = Some mo ->
     port_manager mo <> Some (length (heap (world s)))).
Proof.
  destruct s as [[tr ti ta db lv hp pmi mi] hosts sy].
  unfold Conftest.port_manager, Conftest.without_PortManager. cbn [world].
  run_ops. cbn [fst snd world console_host heap PortManager__instance
                Module__instance].
  split; [reflexivity|]. split; [reflexivity|]. split; [reflexivity|].
  split. { unfold current_ports, deref. cbn. apply lookup_fresh. }
  split; [apply lookup_insert_eq|]. split; [reflexivity|].
  intros [Hpm Hmods]. cbn in Hmods. split.
  - split; cbn.
    + intros l [= <-]. rewrite length_app. cbn. lia.
    + intros m mo l Hm Hl. specialize (Hmods m mo l Hm Hl).
      rewrite length_app. lia.
  - intros m mo Hm Hl. specialize (Hmods m mo _ Hm Hl). lia.
Qed.

Lemma port_manager_fixture_singleton s :
  PortManager__instance (world (Conftest.port_manager s).2) =
    Some (length (heap (world s))) /\
  heap (world (Conftest.port_manager s).2) =
    heap (world s) ++ [new_PortManager].
Proof.
  destruct s as [[tr ti ta db lv hp pmi mi] hosts sy].
  split; reflexivity.
Qed.

(** X12 -- a startup that follows the [port_manager] fixture and returns
    gives the port manager of the fixture to every module of [MODULES],
    whatever each of them held before; it creates no other port manager
    and no port is in use. *)
Theorem startup_after_port_manager_fixture env app s :
  (start_app env app (world (Conftest.port_manager s).2)).1 = Ok tt ->
  (forall m, m ∈ MODULES env ->
     Module__instance
       (start_app env app (world (Conftest.port_manager s).2)).2 !! m =
       Some {| port_manager := Some (length (heap (world s))) |}) /\
  PortManager__instance
    (start_app env app (world (Conftest.port_manager s).2)).2 =
    Some (length (heap (world s))) /\
  heap (start_app env app (world (Conftest.port_manager s).2)).2 =
    heap (world s) ++ [new_PortManager] /\
  current_ports (start_app env app (world (Conftest.port_manager s).2)).2 =
    new_PortManager.
Proof.
  destruct (port_manager_fixture_singleton s) as (Hpm & Hhp).
  set (w1 := world (Conftest.port_manager s).2) in *. intros Hok.
  destruct (start_app_frame env app w1) as (_ & _ & Hsome & _).
  destruct (Hsome _ Hpm) as [Hpm' Hhp'].
  split; [|split; [exact Hpm'|split; [congruence|]]].
  - intros m Hin.
    destruct (start_app_run env app w1) as (w2 & Hrun & _ & _ & _ & Hmods).
    rewrite Hrun in *. cbn [fst snd] in *.
    destruct (Hmods Hok) as [_ Hall]. rewrite (Hall m Hin).
    rewrite (the_port_manager_Some _ _ Hpm). reflexivity.
  - unfold current_ports, deref. rewrite Hpm', Hhp', Hhp. apply lookup_fresh.
Qed.

(** X13 -- the platform fixtures do not put [sys.platform] back: around a
    test that leaves [sys] alone, [darwin_platform], [windows_platform] and
    [linux_platform] end with the platform they set; the former platform is
    written to [sys.plaform] instead, and [sys.original_platform] is as it
    was.  So a startup run after [windows_platform] has ended still asks
    for the wake-up timer, and one run after the two others does not
    ("darwin10.10" does not start with "win").  Line 385 of
    [run_around_tests] puts back the platform recorded at import. *)
Theorem platform_fixtures_leave_the_platform body s env app w :
  (forall s', sys (body s') = sys s') ->
  Sys_platform (sys (use Conftest.darwin_platform body s)) = "darwin10.10" /\
  Sys_platform (sys (use Conftest.windows_platform body s)) = "win10" /\
  Sys_platform (sys (use Conftest.linux_platform body s)) = "linuxdebian" /\
  (forall f,
     f ∈ [Conftest.darwin_platform; Conftest.windows_platform;
          Conftest.linux_platform] ->
     Sys_plaform (sys (use f body s)) = Some (Sys_platform (sys s)) /\
     Sys_original_platform (sys (use f body s)) =
       Sys_original_platform (sys s) /\
     (Conftest.restore_platform (use f body (Conftest.at_import s))).1 = Ok tt /\
     Sys_platform
       (sys (Conftest.restore_platform (use f body (Conftest.at_import s))).2) =
       Sys_platform (sys s)) /\
  call_laters
    (run_events
       (start_app
          (with_platform
             (Sys_platform (sys (use Conftest.windows_platform body s))) env)
          app) w) =
    [(WAKEUP_DELAY, wakeup_callback)] /\
  call_laters
    (run_events
       (start_app
          (with_platform
             (Sys_platform (sys (use Conftest.darwin_platform body s))) env)
          app) w) = [] /\
  call_laters
    (run_events
       (start_app
          (with_platform
             (Sys_platform (sys (use Conftest.linux_platform body s))) env)
          app) w) = [].
Proof.
  intros Hbody.
  assert (Hd : Sys_platform (sys (use Conftest.darwin_platform body s)) =
               "darwin10.10")
    by (unfold use; cbn; rewrite Hbody; reflexivity).
  assert (Hw : Sys_platform (sys (use Conftest.windows_platform body s)) =
               "win10")
    by (unfold use; cbn; rewrite Hbody; reflexivity).
  assert (Hl : Sys_platform (sys (use Conftest.linux_platform body s)) =
               "linuxdebian")
    by (unfold use; cbn; rewrite Hbody; reflexivity).
  rewrite Hd, Hw, Hl.
  split; [reflexivity|]. split; [reflexivity|]. split; [reflexivity|].
  split.
  - intros f Hf.
    repeat (apply elem_of_cons in Hf as [-> | Hf]);
      try (apply elem_of_nil in Hf; contradiction);
      unfold use, Conftest.restore_platform; cbn; rewrite !Hbody; cbn;
      repeat split; reflexivity.
  - rewrite !startup_events, !call_laters_startup. repeat split; reflexivity.
Qed.

(** X3 on a host whose computes cannot be read. *)
Lemma start_app_failing_early_touches_no_singleton_witness :
  (exists e, (start_app computes_unreadable the_app empty_world).1 = Raise e) /\
  Module__instance (start_app computes_unreadable the_app empty_world).2 =
    Module__instance empty_world /\
  PortManager__instance (start_app computes_unreadable the_app empty_world).2 =
    PortManager__instance empty_world /\
  heap (start_app computes_unreadable the_app empty_world).2 = heap empty_world /\
  loop_tasks (start_app computes_unreadable the_app empty_world).2 =
    loop_tasks empty_world.
Proof.
  apply (start_app_failing_early_touches_no_singleton
           computes_unreadable the_app empty_world).
  intros cs _ H. discriminate H.
Defined.

(** X4 on a host where the module loop raises. *)
Lemma start_app_schedules_the_listing_before_loading_witness :
  loop_tasks (start_app dynamips_missing the_app empty_world).2 =
    loop_tasks empty_world ++
    [{| task_coro := list_images_of "Qemu"; task_outcome := None |}] /\
  is_Some (Module__instance (start_app dynamips_missing the_app empty_world).2
             !! "Qemu").
Proof.
  apply (start_app_schedules_the_listing_before_loading
           dynamips_missing the_app empty_world []); reflexivity.
Defined.

(** X6 on a shutdown in the world where nothing exists yet. *)
Lemma shutdown_without_port_manager_witness :
  PortManager__instance (shutdown_handler linux_host the_app empty_world).2 =
    Some (length (heap empty_world)) /\
  current_ports (shutdown_handler linux_host the_app empty_world).2 =
    new_PortManager /\
  (forall lvl msg,
     Log lvl msg ∈ run_events (shutdown_handler linux_host the_app) empty_world ->
     lvl = DEBUG).
Proof.
  apply (shutdown_without_port_manager linux_host the_app empty_world).
  - reflexivity.
  - vm_compute. reflexivity.
Defined.

(** X7 on a startup on Linux followed by a shutdown on a host where the
    Dynamips singleton could not be created any more. *)
Lemma shutdown_after_startup_finds_the_singletons_witness :
  (forall m, m ∈ MODULES dynamips_missing ->
     init_error dynamips_missing
       (start_app linux_host the_app empty_world).2 m = None) /\
  (http_close_session dynamips_missing = None ->
   controller_stop dynamips_missing = None ->
   (forall m, m ∈ MODULES dynamips_missing ->
      module_unload dynamips_missing m = None) ->
   (shutdown_handler dynamips_missing the_app
      (start_app linux_host the_app empty_world).2).1 = Ok tt /\
   unload_order
     (run_events (shutdown_handler dynamips_missing the_app)
        (start_app linux_host the_app empty_world).2) =
     MODULES dynamips_missing).
Proof.
  apply (shutdown_after_startup_finds_the_singletons
           linux_host dynamips_missing the_app empty_world).
  - vm_compute. reflexivity.
  - reflexivity.
Defined.

(** X8 on a startup on Windows followed by one on a host where the Dynamips
    singleton could not be created any more. *)
Lemma start_app_twice_witness :
  (start_app dynamips_missing the_app
     (start_app windows_host the_app empty_world).2).1 = Ok tt /\
  PortManager__instance
    (start_app dynamips_missing the_app
       (start_app windows_host the_app empty_world).2).2 =
    PortManager__instance (start_app windows_host the_app empty_world).2 /\
  heap (start_app dynamips_missing the_app
          (start_app windows_host the_app empty_world).2).2 =
    heap (start_app windows_host the_app empty_world).2 /\
  (forall m, m ∈ MODULES windows_host ->
     Module__instance
       (start_app dynamips_missing the_app
          (start_app windows_host the_app empty_world).2).2 !! m =
       Module__instance (start_app windows_host the_app empty_world).2 !! m) /\
  EnsureFuture (list_images_of "Qemu")
    ∈ run_events (start_app dynamips_missing the_app)
        (start_app windows_host the_app empty_world).2 /\
  call_laters
    (run_events (start_app dynamips_missing the_app)
       (start_app windows_host the_app empty_world).2) =
    (if String.prefix "win" (sys_platform dynamips_missing)
     then [(WAKEUP_DELAY, wakeup_callback)]
     else []).
Proof.
  apply (start_app_twice windows_host dynamips_missing the_app empty_world []).
  - vm_compute. reflexivity.
  - reflexivity.
  - reflexivity.
  - reflexivity.
  - reflexivity.
Defined.

(** X12 on a session in which a startup had run before the fixture. *)
Lemma startup_after_port_manager_fixture_witness :
  (forall m, m ∈ MODULES linux_host ->
     Module__instance
       (start_app linux_host the_app
          (world (Conftest.port_manager started_session).2)).2 !! m =
       Some {| port_manager := Some (length (heap (world started_session))) |}) /\
  PortManager__instance
    (start_app linux_host the_app
       (world (Conftest.port_manager started_session).2)).2 =
    Some (length (heap (world started_session))) /\
  heap (start_app linux_host the_app
          (world (Conftest.port_manager started_session).2)).2 =
    heap (world started_session) ++ [new_PortManager] /\
  current_ports
    (start_app linux_host the_app
       (world (Conftest.port_manager started_session).2)).2 =
    new_PortManager.
Proof.
  apply (startup_after_port_manager_fixture linux_host the_app started_session).
  vm_compute. reflexivity.
Defined.

(** X13 around a test that does nothing. *)
Lemma platform_fixtures_leave_the_platform_witness :
  Sys_platform (sys (use Conftest.windows_platform (fun s => s) started_session)) =
    "win10" /\
  call_laters
    (run_events
       (start_app
          (with_platform
             (Sys_platform
                (sys (use Conftest.windows_platform (fun s => s) started_session)))
             linux_host)
          the_app) empty_world) =
    [(WAKEUP_DELAY, wakeup_callback)].
Proof.
  destruct (platform_fixtures_leave_the_platform
              (fun s => s) started_session linux_host the_app empty_world
              (fun s' => eq_refl))
    as (_ & Hw & _ & _ & Ht & _).
  split; [exact Hw|exact Ht].
Defined.

(** X14 -- the whole of a startup in which nothing raises: after the
    configuration of the logger and of the loop, the database is connected,
    the computes are read, the controller is started on them, the Qemu
    singleton is obtained and its image listing scheduled; then each module
    of [MODULES], in order, is announced at DEBUG, obtained and given the
    port manager, the same for all.  The run has no other event: no other
    collaborator is called and nothing is logged above DEBUG. *)
Theorem start_app_when_nothing_raises env app w cs :
  db_connect env = None ->
  db_computes env = Ok cs ->
  controller_start env cs = None ->
  init_error env w "Qemu" = None ->
  (forall m, m ∈ MODULES env -> init_error env w m = None) ->
  (start_app env app w).1 = Ok tt /\
  run_events (start_app env app) w =
    [SetLevel ERROR] ++
    (if String.prefix "win" (sys_platform env)
     then [CallLater WAKEUP_DELAY wakeup_callback]
     else []) ++
    (if decide (log_effective_level env = DEBUG) then [SetDebug true] else []) ++
    [Begin (c_connect_to_db app); Done (c_connect_to_db app);
     Begin (c_get_computes app); Done (c_get_computes app);
     Begin (c_Controller_start cs); Done (c_Controller_start cs);
     Begin (c_instance "Qemu"); Done (c_instance "Qemu");
     EnsureFuture (list_images_of "Qemu")] ++
    flat_map (fun m => [Log DEBUG (Loading_module m); Begin (c_instance m);
                        Done (c_instance m);
                        SetPortManager m (the_port_manager w)])
      (MODULES env).
Proof.
  intros Hdb Hcs Hstart Hq Hall.
  rewrite startup_outcome, startup_events.
  unfold startup_result, steps_result, startup_trace, steps_trace, header.
  rewrite Hdb, Hcs, Hstart, Hq.
  split; [apply loading_all; exact Hall|].
  rewrite (loading_trace_all _ _ _ Hall). cbn [Datatypes.app].
  rewrite <- !app_assoc. reflexivity.
Qed.

(** X14 on Linux, from the world where nothing exists yet. *)
Lemma start_app_when_nothing_raises_witness :
  (start_app linux_host the_app empty_world).1 = Ok tt /\
  run_events (start_app linux_host the_app) empty_world =
    [SetLevel ERROR] ++
    (if String.prefix "win" (sys_platform linux_host)
     then [CallLater WAKEUP_DELAY wakeup_callback]
     else []) ++
    (if decide (log_effective_level linux_host = DEBUG)
     then [SetDebug true] else []) ++
    [Begin (c_connect_to_db the_app); Done (c_connect_to_db the_app);
     Begin (c_get_computes the_app); Done (c_get_computes the_app);
     Begin (c_Controller_start
              [{| compute_id := "local"; compute_host := "127.0.0.1";
                  compute_port := 3080%N |}]);
     Done (c_Controller_start
             [{| compute_id := "local"; compute_host := "127.0.0.1";
                 compute_port := 3080%N |}]);
     Begin (c_instance "Qemu"); Done (c_instance "Qemu");
     EnsureFuture (list_images_of "Qemu")] ++
    flat_map (fun m => [Log DEBUG (Loading_module m); Begin (c_instance m);
                        Done (c_instance m);
                        SetPortManager m (the_port_manager empty_world)])
      (MODULES linux_host).
Proof.
  apply (start_app_when_nothing_raises linux_host the_app empty_world);
    reflexivity.
Defined.

(** X15 -- the whole of a shutdown in which nothing raises: the session is
    closed, the controller stopped, then each module of [MODULES], in
    order, is announced at DEBUG, obtained and unloaded, and the run ends
    with the report on the ports in use.  The run has no other event. *)
Theorem shutdown_handler_when_nothing_raises env app w :
  http_close_session env = None ->
  controller_stop env = None ->
  (forall m, m ∈ MODULES env ->
     init_error env w m = None /\ module_unload env m = None) ->
  (shutdown_handler env app w).1 = Ok tt /\
  run_events (shutdown_handler env app) w =
    [Begin c_HTTPClient_close_session; Done c_HTTPClient_close_session;
     Begin c_Controller_stop; Done c_Controller_stop] ++
    flat_map (fun m => [Log DEBUG (Unloading_module m); Begin (c_instance m);
                        Done (c_instance m); Begin (c_unload m);
                        Done (c_unload m)])
      (MODULES env) ++
    leak_report (current_ports (shutdown_handler env app w).2).
Proof.
  intros Hclose Hstop Hall.
  rewrite shutdown_outcome, shutdown_events.
  unfold shutdown_result, shutdown_trace. rewrite Hclose, Hstop.
  destruct (unloading_all env (init_error env w) (MODULES env) Hall) as [Hres _].
  rewrite Hres, (unloading_trace_all _ _ _ Hall).
  split; reflexivity.
Qed.

(** X15 on a shutdown in a world where ports are still in use. *)
Lemma shutdown_handler_when_nothing_raises_witness :
  (shutdown_handler linux_host the_app leaking_world).1 = Ok tt /\
  run_events (shutdown_handler linux_host the_app) leaking_world =
    [Begin c_HTTPClient_close_session; Done c_HTTPClient_close_session;
     Begin c_Controller_stop; Done c_Controller_stop] ++
    flat_map (fun m => [Log DEBUG (Unloading_module m); Begin (c_instance m);
                        Done (c_instance m); Begin (c_unload m);
                        Done (c_unload m)])
      (MODULES linux_host) ++
    leak_report
      (current_ports (shutdown_handler linux_host the_app leaking_world).2).
Proof.
  apply (shutdown_handler_when_nothing_raises linux_host the_app leaking_world);
    try reflexivity.
  intros m _. split; reflexivity.
Defined.
